(** * Project-management dashboard: a shallow embedding of the front end

    The sources are the React components of the dashboard
    ([TaskCard], [Tasks], [Analytics], [Projects], [WorkflowView]) and the
    API client.  Every definition below is the pure content of one source
    function: component state is passed explicitly, the browser's clock,
    locale and date parser are a record [World] that is read where the
    source calls [new Date(...)], and JavaScript exceptions are a result
    type.  The FastAPI back end ([backend/server.py]) is not among the
    sources; what the development needs from it is marked as such. *)

From Stdlib Require Import String Ascii ZArith QArith Lia Bool Arith List.
From Stdlib Require Import DecimalString Lqa.
Import ListNotations.

Local Open Scope string_scope.
Local Open Scope list_scope.
Local Open Scope nat_scope.

Set Implicit Arguments.

(** ** Data as the components receive it (JSON records) *)

(** A task as returned by [GET /api/tasks].  Fields the components guard
    with a truthiness test are options; [None] stands for both [null] and
    [undefined]. *)
Record Task := mkTask {
  task_id          : string;
  title            : string;
  description      : option string;
  status           : option string;
  priority         : option string;
  project_id       : string;
  assignee_id      : option string;
  assignee_name    : option string;
  due_date         : option string;
  estimated_hours  : option Q;
  actual_hours     : option Q
}.

Record Project := mkProject {
  proj_id   : string;
  proj_name : string
}.

Record User := mkUser {
  user_id   : string;
  user_name : string
}.

(** ** The browser environment

    [new Date()] reads the clock, [new Date(s)] parses [s] (a date-time
    without zone designator is read in the local zone), and the two
    formatting methods depend on locale and time zone.  A JavaScript
    [Date] is a time value in milliseconds since the epoch, or NaN for an
    invalid date: [option Z]. *)
Record World := mkWorld {
  clock              : Z;
  parseDate          : string -> option Z;
  toLocaleDateString : Z -> string;
  toDateString       : Z -> string
}.

Definition JsDate := option Z.

Definition msPerDay : Z := 86400000.

(** [new Date()] *)
Definition Date_now (w : World) : JsDate := Some (clock w).

(** [new Date(dateString)] *)
Definition Date_of_string (w : World) (s : string) : JsDate := parseDate w s.

(** [a < b] on two dates: comparison of the time values, false as soon as
    one of them is NaN. *)
Definition date_lt (a b : JsDate) : bool :=
  match a, b with
  | Some x, Some y => (x <? y)%Z
  | _, _ => false
  end.

Definition date_toLocaleDateString (w : World) (d : JsDate) : string :=
  match d with
  | Some t => toLocaleDateString w t
  | None => "Invalid Date"
  end.

Definition date_toDateString (w : World) (d : JsDate) : string :=
  match d with
  | Some t => toDateString w t
  | None => "Invalid Date"
  end.

(** [x === 'lit'] and [x !== 'lit'] on a possibly missing string. *)
Definition str_is (x : option string) (lit : string) : bool :=
  match x with
  | Some s => String.eqb s lit
  | None => false
  end.

Definition str_isnt (x : option string) (lit : string) : bool :=
  negb (str_is x lit).

(** [!s] on a possibly missing string: null, undefined and the empty
    string are falsy. *)
Definition falsy_str (x : option string) : bool :=
  match x with
  | None => true
  | Some s => String.eqb s ""
  end.

(** [s.replace('_', ' ')]: a string pattern replaces the first occurrence
    only. *)
Fixpoint replace_underscore (s : string) : string :=
  match s with
  | EmptyString => EmptyString
  | String c r =>
      if Ascii.eqb c "_" then String " " r else String c (replace_underscore r)
  end.

(** The outcome of an awaited API call. *)
Inductive Response (A : Type) : Type :=
| Resolved (data : A)
| Rejected.

Arguments Rejected {A}.

Inductive Toast : Type :=
| ToastSuccess (msg : string)
| ToastError (msg : string).

(** ** WorkflowView.js: the task node *)

Module TaskNode.

Record DueDateInfo := mkInfo {
  formatted : string;
  isOverdue : bool
}.

(** [formatDate] of [TaskNode]; [data_status] is [data.status] of the
    enclosing node.  [None] is the [null] of the early return. *)
Definition formatDate (w : World) (data_status : option string)
    (dateString : option string) : option DueDateInfo :=
  if falsy_str dateString then None
  else
    match dateString with
    | None => None
    | Some s =>
        let date := Date_of_string w s in
        let now := Date_now w in
        let isOverdue := date_lt date now && str_isnt data_status "done" in
        Some {| formatted := date_toLocaleDateString w date;
                isOverdue := isOverdue |}
    end.

End TaskNode.

(** ** Tasks.js: the task card *)

Module TaskCard.

Record DueDateInfo := mkInfo {
  formatted : string;
  isOverdue : bool;
  isToday   : bool
}.

(** [formatDate] of [TaskCard] returns the string ['No due date'] or an
    object: a sum. *)
Definition formatDate (w : World) (task : Task)
    (dateString : option string) : string + DueDateInfo :=
  if falsy_str dateString then inl "No due date"
  else
    match dateString with
    | None => inl "No due date"
    | Some s =>
        let date := Date_of_string w s in
        let now := Date_now w in
        let isOverdue := date_lt date now && str_isnt (status task) "done" in
        let isToday :=
          String.eqb (date_toDateString w date) (date_toDateString w now) in
        inr {| formatted := date_toLocaleDateString w date;
               isOverdue := isOverdue;
               isToday := isToday |}
    end.

(** [dueDateInfo.isOverdue], [dueDateInfo.isToday] and
    [dueDateInfo.formatted] as the JSX reads them: on the string
    ['No due date'] the property is undefined, which is falsy and renders
    as nothing. *)
Definition info_isOverdue (r : string + DueDateInfo) : bool :=
  match r with inl _ => false | inr i => isOverdue i end.

Definition info_isToday (r : string + DueDateInfo) : bool :=
  match r with inl _ => false | inr i => isToday i end.

Definition info_formatted (r : string + DueDateInfo) : option string :=
  match r with inl _ => None | inr i => Some (formatted i) end.

(** [projects.find(p => p.id === projectId)] *)
Definition getProject (projects : list Project) (projectId : string)
    : option Project :=
  find (fun p => String.eqb (proj_id p) projectId) projects.

(** [users.find(u => u.id === userId)]; a null [userId] equals no id. *)
Definition getUser (users : list User) (userId : option string)
    : option User :=
  match userId with
  | None => None
  | Some uid => find (fun u => String.eqb (user_id u) uid) users
  end.

(** Truthiness of an optional number. *)
Definition truthy_num (x : option Q) : bool :=
  match x with
  | None => false
  | Some q => negb (Qnum q =? 0)%Z
  end.

(** [task.estimated_hours && ` / ${task.estimated_hours}`]: a falsy left
    operand is the value of the conjunction, and React prints the number
    0 while it prints nothing for null. *)
Inductive EstimatePart : Type :=
| EstNothing
| EstZero
| EstOf (hours : Q).

Record HoursRow := mkHours {
  hr_actual   : Q;
  hr_estimate : EstimatePart
}.

(** [(task.estimated_hours || task.actual_hours) && (...)]: when both
    fields are falsy the expression has the value of [actual_hours], and
    React prints a number 0 while it prints nothing for null. *)
Inductive HoursPart : Type :=
| HoursNothing
| HoursStrayZero
| HoursShown (row : HoursRow).

Record CardView := mkCardView {
  cv_title       : string;
  cv_description : option string;
  cv_priority    : option string;
  cv_status      : string;
  cv_project     : string;
  cv_assignee    : option string;
  cv_due         : option string;
  cv_overdue     : bool;
  cv_today       : bool;
  cv_hours       : HoursPart
}.

(** A render either produces the view or throws: the only member access
    on a value that may be missing is [task.status.replace]. *)
Inductive Rendered : Type :=
| View (v : CardView)
| ThrowsTypeError.

Definition render (w : World) (task : Task) (projects : list Project)
    (users : list User) : Rendered :=
  let dueDateInfo := formatDate w task (due_date task) in
  let project := getProject projects (project_id task) in
  let assignee := getUser users (assignee_id task) in
  match status task with
  | None => ThrowsTypeError
  | Some st =>
      View {|
        cv_title := title task;
        cv_description :=
          if falsy_str (description task) then None else description task;
        cv_priority := priority task;
        cv_status := replace_underscore st;
        cv_project :=
          match project with
          | Some p => if String.eqb (proj_name p) "" then "Unknown"
                      else proj_name p
          | None => "Unknown"
          end;
        cv_assignee := option_map user_name assignee;
        cv_due := info_formatted dueDateInfo;
        cv_overdue := info_isOverdue dueDateInfo;
        cv_today := info_isToday dueDateInfo;
        cv_hours :=
          if truthy_num (estimated_hours task) || truthy_num (actual_hours task)
          then HoursShown {|
            hr_actual :=
              match actual_hours task with
              | Some a => if truthy_num (Some a) then a else 0%Q
              | None => 0%Q
              end;
            hr_estimate :=
              match estimated_hours task with
              | None => EstNothing
              | Some e => if truthy_num (Some e) then EstOf e else EstZero
              end |}
          else
            match actual_hours task with
            | Some _ => HoursStrayZero
            | None => HoursNothing
            end
      |}
  end.

End TaskCard.

(** ** WorkflowView.js: nodes, edges and the task summary *)

Module WorkflowView.

Record Position := mkPosition { pos_x : nat; pos_y : nat }.

(** [data] of a node: the task spread into it, plus [assignee]. *)
Record NodeData := mkNodeData {
  nd_task  : Task;
  assignee : string
}.

Record Node := mkNode {
  node_id   : string;
  node_type : string;
  position  : Position;
  data      : NodeData
}.

Record Edge := mkEdge {
  edge_id   : string;
  source    : string;
  target    : string;
  edge_type : string;
  animated  : bool
}.

(** The decimal numeral of [i], as a template literal prints it. *)
Definition dec (i : nat) : string := NilEmpty.string_of_uint (Nat.to_uint i).

(** The callback of [(tasksRes.data || []).map((task, index) => ...)]. *)
Definition taskNode (task : Task) (index : nat) : Node :=
  let col := index mod 4 in
  let row := index / 4 in
  {| node_id := task_id task;
     node_type := "taskNode";
     position := {| pos_x := col * 280 + 50; pos_y := row * 150 + 50 |};
     data := {| nd_task := task;
                assignee := if falsy_str (assignee_name task) then "Unassigned"
                            else match assignee_name task with
                                 | Some n => n
                                 | None => "Unassigned"
                                 end |} |}.

Fixpoint mapi_from {A B : Type} (f : A -> nat -> B) (i : nat) (l : list A)
    : list B :=
  match l with
  | [] => []
  | x :: r => f x i :: mapi_from f (S i) r
  end.

Definition taskNodes (tasks : list Task) : list Node :=
  mapi_from taskNode 0 tasks.

(** One turn of the [for] loop over [i]; [None] is the TypeError of
    reading [.id] on an index that holds no node. *)
Definition edge_step (nodes : list Node) (acc : option (list Edge)) (i : nat)
    : option (list Edge) :=
  match acc with
  | None => None
  | Some es =>
      if ((i mod 3 =? 0) && (i + 1 <? length nodes))%nat then
        match nth_error nodes i, nth_error nodes (i + 1) with
        | Some s, Some t =>
            Some (es ++ [ {| edge_id :=
                               String.append "e"
                                 (String.append (dec i)
                                    (String.append "-" (dec (i + 1))));
                             source := node_id s;
                             target := node_id t;
                             edge_type := "smoothstep";
                             animated :=
                               str_is (status (nd_task (data s))) "in_progress"
                          |} ])
        | _, _ => None
        end
      else Some es
  end.

(** [for (let i = 0; i < taskNodes.length - 1; i++)]: for an empty array
    the bound is -1 and the body never runs, as with the truncated
    subtraction here. *)
Definition taskEdges (nodes : list Node) : option (list Edge) :=
  fold_left (edge_step nodes) (seq 0 (length nodes - 1)) (Some []).

Record State := mkState {
  st_project : option Project;
  st_tasks   : list Task;
  st_nodes   : list Node;
  st_edges   : list Edge;
  st_loading : bool;
  st_toasts  : list Toast
}.

(** [fetchData]: both requests are awaited together; the setters run in
    source order, so an exception in the edge loop leaves the edges as
    they were. *)
Definition fetchData (st : State) (projectRes : Response (option Project))
    (tasksRes : Response (option (list Task))) : State :=
  match projectRes, tasksRes with
  | Resolved p, Resolved d =>
      let tasks := match d with Some l => l | None => [] end in
      let nodes := taskNodes tasks in
      match taskEdges nodes with
      | Some es =>
          {| st_project := p; st_tasks := tasks; st_nodes := nodes;
             st_edges := es; st_loading := false;
             st_toasts := st_toasts st |}
      | None =>
          {| st_project := p; st_tasks := tasks; st_nodes := nodes;
             st_edges := st_edges st; st_loading := false;
             st_toasts :=
               st_toasts st ++ [ToastError "Failed to load workflow data"] |}
      end
  | _, _ =>
      {| st_project := st_project st; st_tasks := st_tasks st;
         st_nodes := st_nodes st; st_edges := st_edges st;
         st_loading := false;
         st_toasts :=
           st_toasts st ++ [ToastError "Failed to load workflow data"] |}
  end.

(** The project overview: [tasks.length] and the two filtered counts. *)
Definition totalTasks (tasks : list Task) : nat := length tasks.

Definition completedTasks (tasks : list Task) : nat :=
  length (filter (fun t => str_is (status t) "done") tasks).

Definition inProgressTasks (tasks : list Task) : nat :=
  length (filter (fun t => str_is (status t) "in_progress") tasks).

(** The task summary: one card per entry of the literal array. *)
Definition summaryStatuses : list string :=
  ["todo"; "in_progress"; "review"; "done"].

Definition statusLabels : list (string * string) :=
  [("todo", "To Do"); ("in_progress", "In Progress");
   ("review", "Review"); ("done", "Done")].

Fixpoint lookup {A : Type} (k : string) (o : list (string * A)) : option A :=
  match o with
  | [] => None
  | (k', v) :: r => if String.eqb k' k then Some v else lookup k r
  end.

Record SummaryCard := mkSummaryCard {
  card_key   : string;
  card_label : option string;
  card_count : nat;
  card_shown : list Task;
  card_more  : option nat
}.

Definition summaryCard (tasks : list Task) (st : string) : SummaryCard :=
  let statusTasks := filter (fun t => str_is (status t) st) tasks in
  {| card_key := st;
     card_label := lookup st statusLabels;
     card_count := length statusTasks;
     card_shown := firstn 3 statusTasks;
     card_more := if (3 <? length statusTasks)%nat
                  then Some (length statusTasks - 3) else None |}.

Definition taskSummary (tasks : list Task) : list SummaryCard :=
  map (summaryCard tasks) summaryStatuses.

End WorkflowView.

(** ** Analytics.js: chart data *)

Module Analytics.

(** A JSON object as [Object.keys] and [Object.values] enumerate it: its
    own entries in enumeration order. *)
Definition JsObject (A : Type) := list (string * A).

Definition Object_keys {A : Type} (o : JsObject A) : list string :=
  map fst o.

Definition Object_values {A : Type} (o : JsObject A) : list A :=
  map snd o.

Record ProjectAnalytics := mkProjectAnalytics {
  total_projects     : option nat;
  projects_by_status : JsObject nat;
  projects_by_month  : JsObject nat
}.

Record TaskAnalytics := mkTaskAnalytics {
  total_tasks       : option nat;
  tasks_by_status   : JsObject nat;
  tasks_by_priority : JsObject nat;
  overdue_tasks     : option nat
}.

(** [\w] of a regular expression without the unicode flag. *)
Definition is_word (c : ascii) : bool :=
  let n := nat_of_ascii c in
  (((48 <=? n) && (n <=? 57)) || ((65 <=? n) && (n <=? 90))
   || ((97 <=? n) && (n <=? 122)) || (n =? 95))%nat.

(** [toUpperCase] on one matched character. *)
Definition upper (c : ascii) : ascii :=
  let n := nat_of_ascii c in
  if ((97 <=? n) && (n <=? 122))%nat then ascii_of_nat (n - 32) else c.

(** [.replace(/\b\w/g, l => l.toUpperCase())]: a word character is
    replaced when the character before it is not a word character;
    [prev_word] tells whether the previous character was one. *)
Fixpoint capitalize_from (prev_word : bool) (s : string) : string :=
  match s with
  | EmptyString => EmptyString
  | String c r =>
      String (if is_word c && negb prev_word then upper c else c)
             (capitalize_from (is_word c) r)
  end.

Definition statusLabel (st : string) : string :=
  capitalize_from false (replace_underscore st).

Record Dataset := mkDataset {
  ds_label           : string;
  ds_data            : list nat;
  ds_backgroundColor : list string
}.

Record ChartData := mkChartData {
  labels   : list string;
  datasets : list Dataset
}.

Definition projectStatusChartData (projectAnalytics : option ProjectAnalytics)
    : option ChartData :=
  match projectAnalytics with
  | None => None
  | Some a =>
      Some {| labels := map statusLabel (Object_keys (projects_by_status a));
              datasets :=
                [ {| ds_label := "Projects";
                     ds_data := Object_values (projects_by_status a);
                     ds_backgroundColor :=
                       ["#3B82F6"; "#10B981"; "#F59E0B"; "#EF4444";
                        "#8B5CF6"] |} ] |}
  end.

Definition taskStatusChartData (taskAnalytics : option TaskAnalytics)
    : option ChartData :=
  match taskAnalytics with
  | None => None
  | Some a =>
      Some {| labels := map statusLabel (Object_keys (tasks_by_status a));
              datasets :=
                [ {| ds_label := "Tasks";
                     ds_data := Object_values (tasks_by_status a);
                     ds_backgroundColor :=
                       ["#6B7280"; "#3B82F6"; "#F59E0B"; "#10B981"] |} ] |}
  end.

End Analytics.

(** ** Tasks.js and Projects.js: deleting an item *)

Module Tasks.

Record State := mkState {
  tasks  : list Task;
  toasts : list Toast
}.

(** [handleDeleteTask]: [confirmed] is the answer of [window.confirm],
    [deleteRes] the outcome of [tasksApi.delete(taskId)], which is only
    awaited after a positive answer. *)
Definition handleDeleteTask (st : State) (confirmed : bool)
    (deleteRes : Response unit) (taskId : string) : State :=
  if negb confirmed then st
  else
    match deleteRes with
    | Resolved _ =>
        {| tasks :=
             filter (fun t => negb (String.eqb (task_id t) taskId)) (tasks st);
           toasts := toasts st ++ [ToastSuccess "Task deleted successfully"] |}
    | Rejected =>
        {| tasks := tasks st;
           toasts := toasts st ++ [ToastError "Failed to delete task"] |}
    end.

End Tasks.

Module Projects.

Record State := mkState {
  projects : list Project;
  toasts   : list Toast
}.

(** [handleDeleteProject] *)
Definition handleDeleteProject (st : State) (confirmed : bool)
    (deleteRes : Response unit) (projectId : string) : State :=
  if negb confirmed then st
  else
    match deleteRes with
    | Resolved _ =>
        {| projects :=
             filter (fun p => negb (String.eqb (proj_id p) projectId))
                    (projects st);
           toasts :=
             toasts st ++ [ToastSuccess "Project deleted successfully"] |}
    | Rejected =>
        {| projects := projects st;
           toasts := toasts st ++ [ToastError "Failed to delete project"] |}
    end.

(** The badge of the insights dialog:
    [project_health === 'Excellent' ? 'default' :
     project_health === 'Good' ? 'secondary' : 'destructive']. *)
Definition healthBadgeVariant (project_health : option string) : string :=
  if str_is project_health "Excellent" then "default"
  else if str_is project_health "Good" then "secondary"
  else "destructive".

End Projects.

(** What it means for [out] to be [l] with exactly the items whose key is
    [k] taken out: the other items stay, unchanged and in their order. *)
Inductive RemovedByKey {A : Type} (key : A -> string) (k : string)
    : list A -> list A -> Prop :=
| rbk_nil : RemovedByKey key k [] []
| rbk_drop x l out :
    key x = k -> RemovedByKey key k l out -> RemovedByKey key k (x :: l) out
| rbk_keep x l out :
    key x <> k -> RemovedByKey key k l out ->
    RemovedByKey key k (x :: l) (x :: out).

(** ** The analytics aggregator of the back end *)

Module Aggregator.

(** Modelled from the spec: the aggregator behind [/api/analytics/*] is in
    [backend/server.py], which is not among the sources.  A mapping from
    category value to count is kept as the list of its entries, one per
    key; [bump] counts one more item under key [k]. *)
Fixpoint bump (k : string) (m : list (string * nat)) : list (string * nat) :=
  match m with
  | [] => [(k, 1)]
  | (k', n) :: r =>
      if String.eqb k' k then (k', S n) :: r else (k', n) :: bump k r
  end.

(** Modelled from the spec: [aggregate(items, keyFn)], the spec's mapping
    from category value to count; an item whose categorical field is null
    or missing is left out of it. *)
Definition aggregate {A : Type} (items : list A) (keyFn : A -> option string)
    : list (string * nat) :=
  fold_left (fun m x => match keyFn x with
                        | Some k => bump k m
                        | None => m
                        end) items [].

(** Modelled from the spec: [totalCount(items)], which also counts the
    items that [aggregate] leaves out. *)
Definition totalCount {A : Type} (items : list A) : nat := length items.

(** Modelled from the spec: [overdueCount(items, now)], the number of
    tasks whose due date is strictly before [now] and whose status is not
    done; [due] reads the optional due timestamp of a task. *)
Definition overdueCount (due : Task -> option Z) (items : list Task) (now : Z)
    : nat :=
  length (filter (fun t => date_lt (due t) (Some now)
                           && str_isnt (status t) "done") items).

(** Modelled from the spec: the count of tasks with status done, the
    numerator of the completion ratio. *)
Definition doneCount (items : list Task) : nat :=
  length (filter (fun t => str_is (status t) "done") items).

(** Modelled from the spec: the division the spec wants guarded, as the
    host language has it: no result for a zero divisor. *)
Definition divide (n d : nat) : option Q :=
  match d with
  | O => None
  | S _ => Some (Z.of_nat n # Pos.of_nat d)
  end.

(** Modelled from the spec: a ratio over the task count, treated as 0 when
    there are no tasks. *)
Definition ratio (n total : nat) : option Q :=
  if (total =? 0)%nat then Some 0%Q else divide n total.

(** Modelled from the spec: completion ratio, the count of tasks with
    status done over the total task count. *)
Definition completionRatio (items : list Task) : option Q :=
  ratio (doneCount items) (totalCount items).

(** Modelled from the spec: overdue ratio, [overdueCount(tasks, now)] over
    the total task count, with the same guard. *)
Definition overdueRatio (due : Task -> option Z) (items : list Task) (now : Z)
    : option Q :=
  ratio (overdueCount due items now) (totalCount items).

End Aggregator.

(** ** The health scorer of the back end *)

Module HealthScorer.

(** Modelled from the spec: the health label, one of a fixed set of
    four. *)
Inductive HealthLabel : Type :=
| Excellent
| Good
| AtRisk
| Critical.

(** Modelled from the spec: the fields of a project the scorer reads: its
    identifier and the optional start and end dates of the data model. *)
Record ScoredProject := mkScoredProject {
  sp_id    : string;
  sp_start : option Z;
  sp_end   : option Z
}.

(** Modelled from the spec: the three quantities [assess] is a function
    of; the schedule position is absent when it is skipped. *)
Record Metrics := mkMetrics {
  completion : Q;
  overdue    : Q;
  schedule   : option Q
}.

(** Modelled from the spec: one rule of the ordered list of independent
    predicate-to-message rules; [applies] has no answer when a
    sub-computation the rule needs was dropped, and the rule then adds no
    entry. *)
Record Rule := mkRule {
  applies : Metrics -> option bool;
  message : string
}.

(** Modelled from the spec: the health assessment record. *)
Record HealthAssessment := mkAssessment {
  health_label         : HealthLabel;
  recommendations      : list string;
  risk_factors         : list string;
  predicted_completion : string
}.

(** Modelled from the spec: the validation error, the one failure of the
    scorer, distinct from every assessment. *)
Inductive AssessError : Type :=
| ValidationError.

(** Modelled from the spec: schedule position, the fraction of the time
    between start and end date elapsed at [now]; skipped when either date
    is absent, and when the two dates coincide (the guarded division). *)
Definition schedulePosition (p : ScoredProject) (now : Z) : option Q :=
  match sp_start p, sp_end p with
  | Some s, Some e =>
      if (e - s =? 0)%Z then None
      else Some (inject_Z (now - s) / inject_Z (e - s))%Q
  | _, _ => None
  end.

(** Modelled from the spec: the entries of a rule list on given metrics,
    in the declared order of the rules. *)
Definition fired (rules : list Rule) (m : Metrics) : list string :=
  map message
      (filter (fun r => match applies r m with
                        | Some true => true
                        | _ => false
                        end) rules).

(** Modelled from the spec: a task is structurally valid for a project
    when its project reference is the project's identifier. *)
Definition belongs (p : ScoredProject) (t : Task) : bool :=
  String.eqb (project_id t) (sp_id p).

Section Policy.

(** The choices the spec leaves to the implementation: the cutpoints of
    the label, the two rule lists and the wording of the prediction. *)
Variable labelOf : Q -> Q -> HealthLabel.
Variable recommendationRules riskRules : list Rule.
Variable predict : Metrics -> string.

(** Modelled from the spec: the metrics of a project and its tasks, with
    the guarded ratios of the aggregator. *)
Definition metrics (due : Task -> option Z) (now : Z) (p : ScoredProject)
    (tasks : list Task) : Metrics :=
  {| completion :=
       match Aggregator.completionRatio tasks with
       | Some q => q
       | None => 0%Q
       end;
     overdue :=
       match Aggregator.overdueRatio due tasks now with
       | Some q => q
       | None => 0%Q
       end;
     schedule := schedulePosition p now |}.

(** Modelled from the spec: [assess(project, tasks)], with the injected
    clock [now].  It fails, with the validation error and no assessment,
    exactly on a task that does not belong to the project. *)
Definition assess (due : Task -> option Z) (now : Z) (p : ScoredProject)
    (tasks : list Task) : AssessError + HealthAssessment :=
  if forallb (belongs p) tasks then
    let m := metrics due now p tasks in
    inr {| health_label := labelOf (completion m) (overdue m);
           recommendations := fired recommendationRules m;
           risk_factors := fired riskRules m;
           predicted_completion := predict m |}
  else inl ValidationError.

End Policy.

End HealthScorer.

(** ** Counting by key *)

(** The key of an item is [k]. *)
Definition has_key {A : Type} (keyFn : A -> option string) (k : string)
    (x : A) : bool :=
  match keyFn x with
  | Some k' => String.eqb k' k
  | None => false
  end.

(** The number of items with key [k], and of items without key. *)
Definition keyCount {A : Type} (keyFn : A -> option string) (k : string)
    (items : list A) : nat :=
  length (filter (has_key keyFn k) items).

Definition excludedCount {A : Type} (keyFn : A -> option string)
    (items : list A) : nat :=
  length (filter (fun x => match keyFn x with
                           | None => true
                           | Some _ => false
                           end) items).

(** One turn of the fold of [aggregate]. *)
Definition aggregate_step {A : Type} (keyFn : A -> option string)
    (m : list (string * nat)) (x : A) : list (string * nat) :=
  match keyFn x with
  | Some k => Aggregator.bump k m
  | None => m
  end.

(** The count a mapping holds for a key, 0 when the key is absent. *)
Definition countOf (k : string) (m : list (string * nat)) : nat :=
  match WorkflowView.lookup k m with
  | Some n => n
  | None => 0
  end.

(** ** Auxiliary notions used in the statements *)

(** The due instant of a task as both [formatDate] functions read it: none
    when the field is falsy or does not parse. *)
Definition due_time (w : World) (t : Task) : option Z :=
  match due_date t with
  | None => None
  | Some s => if String.eqb s "" then None else parseDate w s
  end.

(** The same task with another status. *)
Definition with_status (t : Task) (st : option string) : Task :=
  {| task_id := task_id t; title := title t; description := description t;
     status := st; priority := priority t; project_id := project_id t;
     assignee_id := assignee_id t; assignee_name := assignee_name t;
     due_date := due_date t; estimated_hours := estimated_hours t;
     actual_hours := actual_hours t |}.

(** The same browser at another clock reading. *)
Definition with_clock (w : World) (c : Z) : World :=
  {| clock := c; parseDate := parseDate w;
     toLocaleDateString := toLocaleDateString w;
     toDateString := toDateString w |}.

(** The overdue flag the card and the node show for a task. *)
Definition card_overdue (w : World) (t : Task) : bool :=
  TaskCard.info_isOverdue (TaskCard.formatDate w t (due_date t)).

Definition node_overdue (w : World) (t : Task) : bool :=
  match TaskNode.formatDate w (status t) (due_date t) with
  | Some i => TaskNode.isOverdue i
  | None => false
  end.

(** The edge the loop builds between the tasks at positions [i] and
    [i + 1]. *)
Definition edge_between (i : nat) (s t : Task) : WorkflowView.Edge :=
  {| WorkflowView.edge_id :=
       String.append "e"
         (String.append (WorkflowView.dec i)
            (String.append "-" (WorkflowView.dec (i + 1))));
     WorkflowView.source := task_id s;
     WorkflowView.target := task_id t;
     WorkflowView.edge_type := "smoothstep";
     WorkflowView.animated := str_is (status s) "in_progress" |}.

(** The edges contributed by position [i] of a task list. *)
Definition edges_at (tasks : list Task) (i : nat) : list WorkflowView.Edge :=
  if (i mod 3 =? 0) && (i + 1 <? length tasks) then
    match nth_error tasks i, nth_error tasks (i + 1) with
    | Some s, Some t => [edge_between i s t]
    | _, _ => []
    end
  else [].

(** The sum of the counts the task summary shows. *)
Definition summaryTotal (tasks : list Task) : nat :=
  list_sum (map WorkflowView.card_count (WorkflowView.taskSummary tasks)).

(** The status field is one of the four values of the summary. *)
Definition summarized (st : option string) : bool :=
  match st with
  | None => false
  | Some s => existsb (String.eqb s) WorkflowView.summaryStatuses
  end.

(** The tasks no card of the summary counts, and those among them whose
    status field is null or missing. *)
Definition unsummarizedCount (tasks : list Task) : nat :=
  length (filter (fun t => negb (summarized (status t))) tasks).

Definition nullStatusCount (tasks : list Task) : nat :=
  length (filter (fun t => match status t with
                           | None => true
                           | Some _ => false
                           end) tasks).

(** A task of the data model: its status is null or one of [todo],
    [in_progress], [review], [done]. *)
Definition status_in_model (t : Task) : Prop :=
  status t = None \/ exists s, status t = Some s
                              /\ In s WorkflowView.summaryStatuses.

(** The keys and counts of the task summary. *)
Definition summaryCounts (tasks : list Task) : list (string * nat) :=
  map (fun c => (WorkflowView.card_key c, WorkflowView.card_count c))
      (WorkflowView.taskSummary tasks).

(** ** Sample data *)

Module Sample.

(** A browser that knows one ISO date, 10 March 2024 at midnight UTC, and
    prints a date as its day number since the epoch. *)
Definition parse (s : string) : option Z :=
  if String.eqb s "2024-03-10T00:00:00.000Z" then Some 1710028800000%Z
  else None.

Definition dayString (t : Z) : string :=
  String.append "day " (WorkflowView.dec (Z.to_nat (t / msPerDay))).

Definition browser (c : Z) : World :=
  {| clock := c; parseDate := parse;
     toLocaleDateString := dayString; toDateString := dayString |}.

(** Another locale: same clock and parser, other formatting. *)
Definition browser_fr (c : Z) : World :=
  {| clock := c; parseDate := parse;
     toLocaleDateString := fun t => String.append "jour " (dayString t);
     toDateString := dayString |}.

Definition task (id st : string) (proj : string) (due : option string) : Task :=
  {| task_id := id; title := String.append "Task " id; description := None;
     status := Some st; priority := Some "medium"; project_id := proj;
     assignee_id := None; assignee_name := None; due_date := due;
     estimated_hours := None; actual_hours := None |}.

Definition t1 : Task := task "t1" "todo" "p1" (Some "2024-03-10T00:00:00.000Z").
Definition t2 : Task := task "t2" "in_progress" "p1" None.
Definition t3 : Task := task "t3" "done" "p1" None.
Definition t4 : Task := task "t4" "in_progress" "p2" None.
Definition t5 : Task := task "t5" "review" "p1" None.

Definition p1 : Project := {| proj_id := "p1"; proj_name := "Website" |}.

End Sample.

(** One choice of cutpoints and rules for the scorer, for sample runs. *)
Module SamplePolicy.

Definition labelOf (completion overdue : Q) : HealthScorer.HealthLabel :=
  if Qle_bool (1 # 2) overdue then HealthScorer.Critical
  else if Qle_bool (3 # 4) completion && Qle_bool overdue 0
       then HealthScorer.Excellent
  else if Qle_bool (1 # 2) completion then HealthScorer.Good
  else HealthScorer.AtRisk.

Definition riskRules : list HealthScorer.Rule :=
  [ {| HealthScorer.applies :=
         fun m => Some (negb (Qle_bool (HealthScorer.overdue m) 0));
       HealthScorer.message := "Some tasks are overdue" |};
    {| HealthScorer.applies :=
         fun m => option_map (Qle_bool 1) (HealthScorer.schedule m);
       HealthScorer.message := "The end date has passed" |} ].

Definition recommendationRules : list HealthScorer.Rule :=
  [ {| HealthScorer.applies :=
         fun m => option_map
                    (fun s => negb (Qle_bool s (HealthScorer.completion m)))
                    (HealthScorer.schedule m);
       HealthScorer.message := "Work is behind the schedule" |} ].

Definition predict (m : HealthScorer.Metrics) : string :=
  match HealthScorer.schedule m with
  | Some _ => "On the planned end date"
  | None => "Not enough data"
  end.

Definition project : HealthScorer.ScoredProject :=
  {| HealthScorer.sp_id := "p1";
     HealthScorer.sp_start := Some 1704067200000%Z;
     HealthScorer.sp_end := None |}.

End SamplePolicy.

(** ** Further parts of the components *)

(** [s.includes(sub)] *)
Fixpoint includes (s sub : string) : bool :=
  if String.prefix sub s then true
  else
    match s with
    | EmptyString => false
    | String _ r => includes r sub
    end.

(** [s.split('T')[0]]: the part before the first [T]. *)
Fixpoint before_T (s : string) : string :=
  match s with
  | EmptyString => EmptyString
  | String c r => if Ascii.eqb c "T" then EmptyString else String c (before_T r)
  end.

(** Tasks.js: creating, updating and filtering.  The page keeps the task
    list and the form in separate state hooks. *)
Module TaskList.

Record FormState := mkForm {
  showForm    : bool;
  editingTask : option Task
}.

(** [handleCreateTask], with the outcome of [tasksApi.create]. *)
Definition handleCreateTask (st : Tasks.State) (fs : FormState)
    (res : Response Task) : Tasks.State * FormState :=
  match res with
  | Resolved d =>
      ({| Tasks.tasks := Tasks.tasks st ++ [d];
          Tasks.toasts :=
            Tasks.toasts st ++ [ToastSuccess "Task created successfully"] |},
       {| showForm := false; editingTask := editingTask fs |})
  | Rejected =>
      ({| Tasks.tasks := Tasks.tasks st;
          Tasks.toasts :=
            Tasks.toasts st ++ [ToastError "Failed to create task"] |},
       fs)
  end.

(** [handleUpdateTask]: [editingTask.id] is read inside the [try], so a
    form without a task under edit ends in the [catch] as a failed call
    does. *)
Definition handleUpdateTask (st : Tasks.State) (fs : FormState)
    (res : Response Task) : Tasks.State * FormState :=
  let failed :=
    ({| Tasks.tasks := Tasks.tasks st;
        Tasks.toasts :=
          Tasks.toasts st ++ [ToastError "Failed to update task"] |}, fs) in
  match editingTask fs with
  | None => failed
  | Some e =>
      match res with
      | Resolved d =>
          ({| Tasks.tasks :=
                map (fun t => if String.eqb (task_id t) (task_id e)
                              then d else t) (Tasks.tasks st);
              Tasks.toasts :=
                Tasks.toasts st
                ++ [ToastSuccess "Task updated successfully"] |},
           {| showForm := false; editingTask := None |})
      | Rejected => failed
      end
  end.

Record Filters := mkFilters {
  searchTerm     : string;
  statusFilter   : string;
  priorityFilter : string;
  projectFilter  : string
}.

(** The callback of [tasks.filter(task => ...)]; [toLowerCase] is the
    string method of the browser. *)
Definition matchesTask (toLowerCase : string -> string) (f : Filters)
    (task : Task) : bool :=
  let matchesSearch :=
    includes (toLowerCase (title task)) (toLowerCase (searchTerm f))
    || match description task with
       | None => false
       | Some d =>
           negb (String.eqb d "")
           && includes (toLowerCase d) (toLowerCase (searchTerm f))
       end in
  let matchesStatus :=
    String.eqb (statusFilter f) "all" || str_is (status task) (statusFilter f) in
  let matchesPriority :=
    String.eqb (priorityFilter f) "all"
    || str_is (priority task) (priorityFilter f) in
  let matchesProject :=
    String.eqb (projectFilter f) "all"
    || String.eqb (project_id task) (projectFilter f) in
  matchesSearch && matchesStatus && matchesPriority && matchesProject.

Definition filteredTasks (toLowerCase : string -> string) (f : Filters)
    (tasks : list Task) : list Task :=
  filter (matchesTask toLowerCase f) tasks.

(** What the page shows under the filters. *)
Inductive GridView : Type :=
| NoTasksYet
| NoTasksMatch
| Grid (cards : list Task).

Definition tasksGrid (toLowerCase : string -> string) (f : Filters)
    (tasks : list Task) : GridView :=
  if length (filteredTasks toLowerCase f tasks) =? 0 then
    if length tasks =? 0 then NoTasksYet else NoTasksMatch
  else Grid (filteredTasks toLowerCase f tasks).

(** The due-date field of the form:
    [task?.due_date ? task.due_date.split('T')[0] : '']. *)
Definition dueDateField (task : option Task) : string :=
  match task with
  | None => ""
  | Some t =>
      match due_date t with
      | None => ""
      | Some s => if String.eqb s "" then "" else before_T s
      end
  end.

End TaskList.

(** Projects.js: the project list and the project card. *)
Module ProjectList.

Record ProjectInfo := mkInfo {
  pi_project     : Project;
  pi_description : option string;
  pi_status      : option string;
  pi_progress    : option Q
}.

(** The callback of [projects.filter(project => ...)].  The description is
    dereferenced without a guard, after the name failed to match; [None]
    is the TypeError. *)
Definition matchesProject (toLowerCase : string -> string)
    (searchTerm statusFilter : string) (p : ProjectInfo) : option bool :=
  let matchesSearch :=
    if includes (toLowerCase (proj_name (pi_project p)))
                (toLowerCase searchTerm)
    then Some true
    else
      match pi_description p with
      | None => None
      | Some d => Some (includes (toLowerCase d) (toLowerCase searchTerm))
      end in
  match matchesSearch with
  | None => None
  | Some ms =>
      Some (ms && (String.eqb statusFilter "all"
                   || str_is (pi_status p) statusFilter))
  end.

Fixpoint filteredProjects (toLowerCase : string -> string)
    (searchTerm statusFilter : string) (projects : list ProjectInfo)
    : option (list ProjectInfo) :=
  match projects with
  | [] => Some []
  | p :: r =>
      match matchesProject toLowerCase searchTerm statusFilter p with
      | None => None
      | Some b =>
          match filteredProjects toLowerCase searchTerm statusFilter r with
          | None => None
          | Some out => Some (if b then p :: out else out)
          end
      end
  end.

(** [getProgressColor]; a missing progress compares false with every
    bound. *)
Definition getProgressColor (progress : option Q) : string :=
  match progress with
  | None => "bg-red-500"
  | Some p =>
      if Qle_bool 80 p then "bg-green-500"
      else if Qle_bool 60 p then "bg-blue-500"
      else if Qle_bool 40 p then "bg-yellow-500"
      else "bg-red-500"
  end.

End ProjectList.

(** WorkflowView.js: colours of a task node and of the minimap. *)
Module NodeStyle.

Definition getStatusColor (st : option string) : string :=
  if str_is st "todo" then "border-gray-300 bg-gray-50"
  else if str_is st "in_progress" then "border-blue-300 bg-blue-50"
  else if str_is st "review" then "border-yellow-300 bg-yellow-50"
  else if str_is st "done" then "border-green-300 bg-green-50"
  else "border-gray-300 bg-gray-50".

Definition getPriorityColor (pr : option string) : string :=
  if str_is pr "low" then "text-gray-600"
  else if str_is pr "medium" then "text-blue-600"
  else if str_is pr "high" then "text-orange-600"
  else if str_is pr "critical" then "text-red-600"
  else "text-gray-600".

(** [nodeColor] of the [MiniMap]. *)
Definition nodeColor (n : WorkflowView.Node) : string :=
  let st := status (WorkflowView.nd_task (WorkflowView.data n)) in
  if str_is st "done" then "#10B981"
  else if str_is st "in_progress" then "#3B82F6"
  else if str_is st "review" then "#F59E0B"
  else "#6B7280".

End NodeStyle.

(** Dashboard.js: the statistics and the recent items. *)
Module Dashboard.

Record Stats := mkStats {
  projects       : nat;
  tasks          : nat;
  completedTasks : nat;
  overdueTasks   : nat
}.

Record State := mkState {
  loading        : bool;
  stats          : Stats;
  recentProjects : list Project;
  recentTasks    : list Task;
  toasts         : list Toast
}.

(** The state of the first render. *)
Definition initial : State :=
  {| loading := true;
     stats := {| projects := 0; tasks := 0; completedTasks := 0;
                 overdueTasks := 0 |};
     recentProjects := []; recentTasks := []; toasts := [] |}.

(** [x || 0] on an optional count. *)
Definition or0 (x : option nat) : nat :=
  match x with Some n => n | None => 0 end.

Definition failed (st : State) : State :=
  {| loading := false; stats := stats st;
     recentProjects := recentProjects st; recentTasks := recentTasks st;
     toasts := toasts st ++ [ToastError "Failed to load dashboard data"] |}.

(** [fetchDashboardData]: the four requests are awaited together; [data]
    of a response may be null, and the three setters run in source order,
    so that a null list throws after the setters before it have run. *)
Definition fetchDashboardData (st : State)
    (projectsRes : Response (option (list Project)))
    (tasksRes : Response (option (list Task)))
    (projectAnalyticsRes : Response (option Analytics.ProjectAnalytics))
    (taskAnalyticsRes : Response (option Analytics.TaskAnalytics)) : State :=
  match projectsRes, tasksRes, projectAnalyticsRes, taskAnalyticsRes with
  | Resolved ps, Resolved ts, Resolved (Some pa), Resolved (Some ta) =>
      let stats' :=
        {| projects := or0 (Analytics.total_projects pa);
           tasks := or0 (Analytics.total_tasks ta);
           completedTasks :=
             or0 (WorkflowView.lookup "done" (Analytics.tasks_by_status ta));
           overdueTasks := or0 (Analytics.overdue_tasks ta) |} in
      match ps with
      | None => failed {| loading := loading st; stats := stats';
                          recentProjects := recentProjects st;
                          recentTasks := recentTasks st;
                          toasts := toasts st |}
      | Some pl =>
          match ts with
          | None => failed {| loading := loading st; stats := stats';
                              recentProjects := firstn 5 pl;
                              recentTasks := recentTasks st;
                              toasts := toasts st |}
          | Some tl =>
              {| loading := false; stats := stats';
                 recentProjects := firstn 5 pl;
                 recentTasks := firstn 5 tl;
                 toasts := toasts st |}
          end
      end
  | _, _, _, _ => failed st
  end.

End Dashboard.

(** The answers to one load of the dashboard, and a run of loads from the
    first render on. *)
Record DashboardLoad := mkLoad {
  ld_projects         : Response (option (list Project));
  ld_tasks            : Response (option (list Task));
  ld_projectAnalytics : Response (option Analytics.ProjectAnalytics);
  ld_taskAnalytics    : Response (option Analytics.TaskAnalytics)
}.

Definition dashboardLoad (st : Dashboard.State) (l : DashboardLoad)
    : Dashboard.State :=
  Dashboard.fetchDashboardData st (ld_projects l) (ld_tasks l)
    (ld_projectAnalytics l) (ld_taskAnalytics l).

Definition dashboardRun (loads : list DashboardLoad) : Dashboard.State :=
  fold_left dashboardLoad loads Dashboard.initial.

(** The ASCII lower-casing, for sample runs of the filters. *)
Definition ascii_lower (c : ascii) : ascii :=
  let n := nat_of_ascii c in
  if ((65 <=? n) && (n <=? 90))%nat then ascii_of_nat (n + 32) else c.

Fixpoint lower_ascii (s : string) : string :=
  match s with
  | EmptyString => EmptyString
  | String c r => String (ascii_lower c) (lower_ascii r)
  end.

(** The number of underscores of a string. *)
Fixpoint underscores (s : string) : nat :=
  match s with
  | EmptyString => 0
  | String c r => (if Ascii.eqb c "_" then 1 else 0) + underscores r
  end.

(** The position of the first underscore of a string. *)
Fixpoint first_underscore (s : string) : option nat :=
  match s with
  | EmptyString => None
  | String c r =>
      if Ascii.eqb c "_" then Some 0 else option_map S (first_underscore r)
  end.

(** The character at position [i] of a key once its first underscore has
    become a space. *)
Definition spaced (key : string) (i : nat) : option ascii :=
  match String.get i key with
  | None => None
  | Some c =>
      Some (if match first_underscore key with
               | Some j => Nat.eqb j i
               | None => false
               end
            then " "%char else c)
  end.

(** Position [i] of the spaced key comes right after a word character. *)
Definition after_word (key : string) (i : nat) : bool :=
  match i with
  | O => false
  | S j => match spaced key j with
           | Some d => Analytics.is_word d
           | None => false
           end
  end.

(** The rank of a progress colour, from worst to best. *)
Definition colorRank (c : string) : nat :=
  if String.eqb c "bg-green-500" then 3
  else if String.eqb c "bg-blue-500" then 2
  else if String.eqb c "bg-yellow-500" then 1
  else 0.

(** No [T] in a string. *)
Fixpoint no_T (s : string) : bool :=
  match s with
  | EmptyString => true
  | String c r => negb (Ascii.eqb c "T") && no_T r
  end.

(** Case analysis on the string comparisons of a goal. *)
Ltac split_status :=
  repeat match goal with
         | |- context [String.eqb ?x ?y] =>
             destruct (String.eqb_spec x y); subst; simpl
         end.

(** * Properties *)

(** ** The overdue predicate *)

Lemma date_lt_spec (a b : Z) : date_lt (Some a) (Some b) = true <-> (a < b)%Z.
Proof. simpl. apply Z.ltb_lt. Qed.

Lemma str_is_spec (x : option string) (lit : string) :
  str_is x lit = true <-> x = Some lit.
Proof.
  unfold str_is. destruct x as [s|].
  - rewrite String.eqb_eq. split; congruence.
  - split; discriminate.
Qed.

Lemma str_isnt_spec (x : option string) (lit : string) :
  str_isnt x lit = true <-> x <> Some lit.
Proof.
  unfold str_isnt. rewrite negb_true_iff, <- not_true_iff_false, str_is_spec.
  tauto.
Qed.

(** Both [formatDate] functions compute the flag from the due instant,
    the clock reading and the status, and from nothing else. *)
Lemma card_overdue_eq (w : World) (t : Task) :
  card_overdue w t =
  date_lt (due_time w t) (Some (clock w)) && str_isnt (status t) "done".
Proof.
  unfold card_overdue, TaskCard.formatDate, due_time, falsy_str.
  destruct (due_date t) as [s|]; [|reflexivity].
  destruct (String.eqb s ""); reflexivity.
Qed.

Lemma node_overdue_eq (w : World) (t : Task) :
  node_overdue w t =
  date_lt (due_time w t) (Some (clock w)) && str_isnt (status t) "done".
Proof.
  unfold node_overdue, TaskNode.formatDate, due_time, falsy_str.
  destruct (due_date t) as [s|]; [|reflexivity].
  destruct (String.eqb s ""); reflexivity.
Qed.

Lemma overdue_flag_iff (w : World) (t : Task) :
  date_lt (due_time w t) (Some (clock w)) && str_isnt (status t) "done" = true
  <-> exists d, due_time w t = Some d /\ (d < clock w)%Z
                /\ status t <> Some "done".
Proof.
  rewrite andb_true_iff, str_isnt_spec. split.
  - intros [Hlt Hst]. destruct (due_time w t) as [d|]; [|discriminate].
    exists d. rewrite date_lt_spec in Hlt. auto.
  - intros (d & -> & Hlt & Hst). rewrite date_lt_spec. auto.
Qed.

(** C1: a task counts as overdue exactly when its due date is strictly
    before the current time and its status is not "done"; in particular a
    task due one day before now is overdue with status "todo" and is not
    with status "done".  This holds for the flag of the task card and for
    the flag of the workflow node. *)
Theorem overdue_iff_past_due_and_not_done :
  forall (w : World) (t : Task) (d : Z),
    due_time w t = Some d ->
    d = (clock w - msPerDay)%Z ->
    (forall u : Task,
        (card_overdue w u = true <->
         exists e, due_time w u = Some e /\ (e < clock w)%Z
                   /\ status u <> Some "done")
        /\ (node_overdue w u = true <->
            exists e, due_time w u = Some e /\ (e < clock w)%Z
                      /\ status u <> Some "done"))
    /\ card_overdue w (with_status t (Some "todo")) = true
    /\ node_overdue w (with_status t (Some "todo")) = true
    /\ card_overdue w (with_status t (Some "done")) = false
    /\ node_overdue w (with_status t (Some "done")) = false.
Proof.
  intros w t d Hd Hday. split.
  - intros u. rewrite card_overdue_eq, node_overdue_eq.
    split; apply overdue_flag_iff.
  - assert (Hdue : forall st, due_time w (with_status t st) = Some d)
      by (intros st; exact Hd).
    assert (Hlt : (d <? clock w)%Z = true)
      by (apply Z.ltb_lt; unfold msPerDay in Hday; lia).
    rewrite !card_overdue_eq, !node_overdue_eq, !Hdue. simpl.
    rewrite Hlt. repeat split; reflexivity.
Qed.

Lemma overdue_iff_past_due_and_not_done_witness :
  card_overdue (Sample.browser 1710115200000) Sample.t1 = true
  /\ card_overdue (Sample.browser 1710115200000)
       (with_status Sample.t1 (Some "done")) = false.
Proof.
  destruct (@overdue_iff_past_due_and_not_done
              (Sample.browser 1710115200000) Sample.t1 1710028800000%Z)
    as (_ & Htodo & _ & Hdone & _).
  - reflexivity.
  - reflexivity.
  - split; [exact Htodo | exact Hdone].
Defined.

(** ** The clock *)

(** C2, as the spec states it, fails: the same task, shown by two browsers
    that differ in nothing but the clock reading, is overdue in one and
    not in the other.  [formatDate] has no time parameter. *)
Lemma overdue_depends_on_ambient_clock :
  with_clock (Sample.browser 1710028800000) 1710028800001
    = Sample.browser 1710028800001
  /\ TaskCard.formatDate (Sample.browser 1710028800000) Sample.t1
       (due_date Sample.t1)
     <> TaskCard.formatDate (Sample.browser 1710028800001) Sample.t1
          (due_date Sample.t1)
  /\ TaskNode.formatDate (Sample.browser 1710028800000)
       (status Sample.t1) (due_date Sample.t1)
     <> TaskNode.formatDate (Sample.browser 1710028800001)
          (status Sample.t1) (due_date Sample.t1)
  /\ card_overdue (Sample.browser 1710028800000) Sample.t1 = false
  /\ card_overdue (Sample.browser 1710028800001) Sample.t1 = true.
Proof.
  split; [reflexivity|].
  split; [vm_compute; discriminate|].
  split; [vm_compute; discriminate|].
  split; reflexivity.
Qed.

(** C2, amended: the current time is read from the browser's clock inside
    [formatDate]; two runs on the same task agree on the overdue flag as
    soon as the two browsers read the same clock value and parse dates
    alike, whatever their locale. *)
Theorem overdue_determined_by_clock_reading :
  forall (w1 w2 : World) (t : Task),
    (forall s, parseDate w1 s = parseDate w2 s) ->
    clock w1 = clock w2 ->
    card_overdue w1 t = card_overdue w2 t
    /\ node_overdue w1 t = node_overdue w2 t.
Proof.
  intros w1 w2 t Hparse Hclock.
  assert (Hdue : due_time w1 t = due_time w2 t).
  { unfold due_time. destruct (due_date t) as [s|]; [|reflexivity].
    destruct (String.eqb s ""); [reflexivity | apply Hparse]. }
  rewrite !card_overdue_eq, !node_overdue_eq, Hdue, Hclock. auto.
Qed.

Lemma overdue_determined_by_clock_reading_witness :
  card_overdue (Sample.browser 1710115200000) Sample.t1
  = card_overdue (Sample.browser_fr 1710115200000) Sample.t1
  /\ TaskCard.formatDate (Sample.browser 1710115200000) Sample.t1
       (due_date Sample.t1)
     <> TaskCard.formatDate (Sample.browser_fr 1710115200000) Sample.t1
          (due_date Sample.t1).
Proof.
  split.
  - apply (@overdue_determined_by_clock_reading
             (Sample.browser 1710115200000)
             (Sample.browser_fr 1710115200000) Sample.t1).
    + intros s. reflexivity.
    + reflexivity.
  - vm_compute. discriminate.
Defined.

(** ** The workflow view: nodes and edges *)

Section WorkflowEdges.

Import WorkflowView.

Lemma mapi_from_length {A B : Type} (f : A -> nat -> B) (l : list A) :
  forall i, length (mapi_from f i l) = length l.
Proof. induction l as [|x r IH]; intros i; simpl; [|rewrite IH]; reflexivity. Qed.

Lemma mapi_from_nth {A B : Type} (f : A -> nat -> B) (l : list A) :
  forall i k,
    nth_error (mapi_from f i l) k
    = option_map (fun x => f x (i + k)) (nth_error l k).
Proof.
  induction l as [|x r IH]; intros i k.
  - destruct k; reflexivity.
  - destruct k as [|k]; simpl.
    + now rewrite Nat.add_0_r.
    + rewrite IH. now rewrite Nat.add_succ_comm.
Qed.

Lemma taskNodes_length (tasks : list Task) :
  length (taskNodes tasks) = length tasks.
Proof. apply mapi_from_length. Qed.

Lemma taskNodes_nth (tasks : list Task) (k : nat) :
  nth_error (taskNodes tasks) k
  = option_map (fun t => taskNode t k) (nth_error tasks k).
Proof. unfold taskNodes. now rewrite mapi_from_nth. Qed.

(** The edges one turn of the loop appends. *)
Lemma edge_step_taskNodes (tasks : list Task) (es : list Edge) (i : nat) :
  edge_step (taskNodes tasks) (Some es) i
  = Some (es ++ edges_at tasks i).
Proof.
  unfold edge_step, edges_at. rewrite taskNodes_length, !taskNodes_nth.
  destruct (i mod 3 =? 0) eqn:Hm; simpl.
  - destruct (i + 1 <? length tasks) eqn:Hlt; simpl.
    + apply Nat.ltb_lt in Hlt.
      destruct (nth_error tasks i) as [s|] eqn:Hs.
      * destruct (nth_error tasks (i + 1)) as [t|] eqn:Ht.
        -- reflexivity.
        -- apply nth_error_None in Ht. lia.
      * apply nth_error_None in Hs. lia.
    + now rewrite app_nil_r.
  - now rewrite app_nil_r.
Qed.

Lemma edge_loop_taskNodes (tasks : list Task) (l : list nat) :
  forall es,
    fold_left (edge_step (taskNodes tasks)) l (Some es)
    = Some (es ++ flat_map (edges_at tasks) l).
Proof.
  induction l as [|i r IH]; intros es; cbn [fold_left flat_map].
  - now rewrite app_nil_r.
  - rewrite edge_step_taskNodes, IH. now rewrite <- app_assoc.
Qed.

Lemma taskEdges_taskNodes (tasks : list Task) :
  taskEdges (taskNodes tasks)
  = Some (flat_map (edges_at tasks) (seq 0 (length tasks - 1))).
Proof.
  unfold taskEdges. rewrite taskNodes_length. apply edge_loop_taskNodes.
Qed.

Lemma in_edges_at (tasks : list Task) (i : nat) (e : Edge) :
  In e (edges_at tasks i) <->
  i mod 3 = 0 /\ i + 1 < length tasks /\
  exists s t, nth_error tasks i = Some s /\ nth_error tasks (i + 1) = Some t
              /\ e = edge_between i s t.
Proof.
  unfold edges_at. split.
  - destruct (i mod 3 =? 0) eqn:Hm; simpl; [|tauto].
    destruct (i + 1 <? length tasks) eqn:Hlt; simpl; [|tauto].
    apply Nat.eqb_eq in Hm. apply Nat.ltb_lt in Hlt.
    destruct (nth_error tasks i) as [s|]; [|simpl; tauto].
    destruct (nth_error tasks (i + 1)) as [t|]; [|simpl; tauto].
    simpl. intros [<-|[]]. repeat split; auto. now exists s, t.
  - intros (Hm & Hlt & s & t & Hs & Ht & ->).
    apply Nat.eqb_eq in Hm. apply Nat.ltb_lt in Hlt.
    rewrite Hm, Hlt, Hs, Ht. simpl. now left.
Qed.

Lemma edges_at_length (tasks : list Task) (i : nat) :
  i < length tasks - 1 ->
  length (edges_at tasks i) = if i mod 3 =? 0 then 1 else 0.
Proof.
  intros Hi. unfold edges_at.
  destruct (i mod 3 =? 0); simpl; [|reflexivity].
  assert (Hlt : (i + 1 <? length tasks) = true) by (apply Nat.ltb_lt; lia).
  rewrite Hlt. simpl.
  destruct (nth_error tasks i) as [s|] eqn:Hs;
    [|apply nth_error_None in Hs; lia].
  destruct (nth_error tasks (i + 1)) as [t|] eqn:Ht;
    [|apply nth_error_None in Ht; lia].
  reflexivity.
Qed.

Lemma flat_map_edges_length (tasks : list Task) (l : list nat) :
  Forall (fun i => i < length tasks - 1) l ->
  length (flat_map (edges_at tasks) l)
  = length (filter (fun i => i mod 3 =? 0) l).
Proof.
  induction 1 as [|i r Hi _ IH]; cbn [flat_map filter]; [reflexivity|].
  rewrite length_app, IH, (edges_at_length _ Hi).
  destruct (i mod 3 =? 0); reflexivity.
Qed.

End WorkflowEdges.

(** C9: the edges of the workflow view are made up from the positions of
    the tasks in the fetched list: the load creates an edge from node i to
    node i+1 exactly when i mod 3 = 0 and i+1 < n, one per such i, animated
    exactly when the source task is "in_progress", and no other edge. *)
Theorem workflow_edges_are_positional :
  forall (st : WorkflowView.State) (p : option Project) (tasks : list Task),
    let loaded :=
      WorkflowView.fetchData st (Resolved p) (Resolved (Some tasks)) in
    WorkflowView.taskEdges (WorkflowView.taskNodes tasks)
      = Some (WorkflowView.st_edges loaded)
    /\ (forall e : WorkflowView.Edge,
          In e (WorkflowView.st_edges loaded) <->
          exists i s t,
            i mod 3 = 0 /\ i + 1 < length tasks
            /\ nth_error tasks i = Some s /\ nth_error tasks (i + 1) = Some t
            /\ e = edge_between i s t)
    /\ length (WorkflowView.st_edges loaded)
       = length (filter (fun i => i mod 3 =? 0) (seq 0 (length tasks - 1)))
    /\ (forall i s t,
          WorkflowView.animated (edge_between i s t) = true
          <-> status s = Some "in_progress").
Proof.
  intros st p tasks loaded.
  assert (Hedges : WorkflowView.st_edges loaded
                   = flat_map (edges_at tasks) (seq 0 (length tasks - 1))).
  { unfold loaded, WorkflowView.fetchData.
    now rewrite taskEdges_taskNodes. }
  rewrite Hedges. split; [apply taskEdges_taskNodes|]. split; [|split].
  - intros e. rewrite in_flat_map. split.
    + intros (i & _ & Hin). apply in_edges_at in Hin.
      destruct Hin as (Hm & Hlt & s & t & Hs & Ht & He).
      now exists i, s, t.
    + intros (i & s & t & Hm & Hlt & Hs & Ht & He).
      exists i. split.
      * apply in_seq. lia.
      * apply in_edges_at. repeat split; auto. now exists s, t.
  - apply flat_map_edges_length. apply Forall_forall.
    intros i Hi. apply in_seq in Hi. lia.
  - intros i s t. unfold edge_between. simpl. apply str_is_spec.
Qed.

(** ** Deleting a task or a project *)

Section Removal.

Context {A : Type} (key : A -> string) (k : string).

Lemma filter_removes_by_key (l : list A) :
  RemovedByKey key k l (filter (fun x => negb (String.eqb (key x) k)) l).
Proof.
  induction l as [|x r IH]; simpl.
  - constructor.
  - destruct (String.eqb (key x) k) eqn:E; simpl.
    + apply rbk_drop; [now apply String.eqb_eq | exact IH].
    + apply rbk_keep; [now apply String.eqb_neq | exact IH].
Qed.

(** The relation leaves no choice: it determines the list that remains. *)
Lemma RemovedByKey_functional (l out1 out2 : list A) :
  RemovedByKey key k l out1 -> RemovedByKey key k l out2 -> out1 = out2.
Proof.
  intros H1. revert out2.
  induction H1 as [|x l out Hx _ IH|x l out Hx _ IH]; intros out2 H2;
    inversion H2; subst; try congruence.
  - now apply IH.
  - f_equal. now apply IH.
Qed.

Lemma RemovedByKey_In (l out : list A) :
  RemovedByKey key k l out ->
  forall x, In x out <-> In x l /\ key x <> k.
Proof.
  induction 1 as [|y l out Hy _ IH|y l out Hy _ IH]; intros x; simpl.
  - tauto.
  - rewrite IH. split; [tauto|]. intros [[->|Hin] Hk]; tauto.
  - rewrite IH. split.
    + intros [->|[Hin Hk]]; tauto.
    + intros [[->|Hin] Hk]; tauto.
Qed.

(** With distinct keys, and the key present, one item goes. *)
Lemma RemovedByKey_length (l out : list A) :
  RemovedByKey key k l out ->
  NoDup (map key l) -> In k (map key l) ->
  S (length out) = length l.
Proof.
  induction 1 as [|y l out Hy Hrem IH|y l out Hy Hrem IH];
    simpl; intros Hnd Hin.
  - contradiction.
  - inversion Hnd as [|? ? Hnotin Hnd']; subst.
    f_equal.
    assert (Hsame : out = l).
    { clear IH Hnd Hin Hnd'. induction Hrem as [|z l out Hz _ IH|z l out Hz _ IH].
      - reflexivity.
      - exfalso. apply Hnotin. simpl. now left.
      - f_equal. apply IH. intros Hin. apply Hnotin. simpl. now right. }
    now rewrite Hsame.
  - inversion Hnd; subst. destruct Hin as [Heq|Hin]; [congruence|].
    f_equal. now apply IH.
Qed.

End Removal.

(** C10: after the user has confirmed and the API call has succeeded,
    deleting a task (a project) takes exactly the items with the given id
    out of the local list and leaves every other item unchanged and in its
    original relative order; when the API call fails the list is
    unchanged. *)
Theorem delete_removes_exactly_the_given_id :
  forall (ts : Tasks.State) (ps : Projects.State) (id : string),
    RemovedByKey task_id id (Tasks.tasks ts)
      (Tasks.tasks (Tasks.handleDeleteTask ts true (Resolved tt) id))
    /\ (forall x,
          In x (Tasks.tasks (Tasks.handleDeleteTask ts true (Resolved tt) id))
          <-> In x (Tasks.tasks ts) /\ task_id x <> id)
    /\ Tasks.tasks (Tasks.handleDeleteTask ts true Rejected id)
       = Tasks.tasks ts
    /\ RemovedByKey proj_id id (Projects.projects ps)
         (Projects.projects
            (Projects.handleDeleteProject ps true (Resolved tt) id))
    /\ (forall x,
          In x (Projects.projects
                  (Projects.handleDeleteProject ps true (Resolved tt) id))
          <-> In x (Projects.projects ps) /\ proj_id x <> id)
    /\ Projects.projects (Projects.handleDeleteProject ps true Rejected id)
       = Projects.projects ps.
Proof.
  intros ts ps id.
  pose proof (filter_removes_by_key task_id id (Tasks.tasks ts)) as Ht.
  pose proof (filter_removes_by_key proj_id id (Projects.projects ps)) as Hp.
  cbn [Tasks.handleDeleteTask Projects.handleDeleteProject negb
       Tasks.tasks Projects.projects].
  split; [exact Ht|]. split; [exact (RemovedByKey_In Ht)|].
  split; [reflexivity|]. split; [exact Hp|].
  split; [exact (RemovedByKey_In Hp)|reflexivity].
Qed.

(** Without the confirmation nothing happens at all, whatever the API
    would have answered. *)
Lemma delete_needs_confirmation (ts : Tasks.State) (ps : Projects.State)
    (r : Response unit) (id : string) :
  Tasks.handleDeleteTask ts false r id = ts
  /\ Projects.handleDeleteProject ps false r id = ps.
Proof. split; reflexivity. Qed.

(** When ids are distinct and the id is in the list, the list loses one
    item. *)
Lemma delete_task_length (ts : Tasks.State) (id : string) :
  NoDup (map task_id (Tasks.tasks ts)) ->
  In id (map task_id (Tasks.tasks ts)) ->
  S (length (Tasks.tasks (Tasks.handleDeleteTask ts true (Resolved tt) id)))
  = length (Tasks.tasks ts).
Proof.
  intros Hnd Hin.
  apply (RemovedByKey_length (key := task_id) (k := id)); auto.
  apply filter_removes_by_key.
Qed.

(** ** The task summary of the workflow view and the analytics charts *)

Lemma summaryCounts_eq (tasks : list Task) :
  summaryCounts tasks
  = map (fun st => (st, length (filter (fun t => str_is (status t) st) tasks)))
        WorkflowView.summaryStatuses.
Proof. reflexivity. Qed.

Lemma summary_keys (tasks : list Task) :
  map WorkflowView.card_key (WorkflowView.taskSummary tasks)
  = WorkflowView.summaryStatuses.
Proof. reflexivity. Qed.

Lemma summary_card_count (tasks : list Task) (c : WorkflowView.SummaryCard) :
  In c (WorkflowView.taskSummary tasks) ->
  WorkflowView.card_count c
  = length (filter (fun t => str_is (status t) (WorkflowView.card_key c)) tasks).
Proof.
  unfold WorkflowView.taskSummary. rewrite in_map_iff.
  intros (st & <- & _). reflexivity.
Qed.

Lemma filter_length_pos {A : Type} (f : A -> bool) (l : list A) (x : A) :
  In x l -> f x = true -> 1 <= length (filter f l).
Proof.
  intros Hin Hf.
  assert (Hx : In x (filter f l)) by (apply filter_In; auto).
  destruct (filter f l); [contradiction | simpl; lia].
Qed.

Lemma filter_length_zero {A : Type} (f : A -> bool) (l : list A) :
  (forall x, In x l -> f x = false) -> length (filter f l) = 0.
Proof.
  induction l as [|x r IH]; intros H; simpl; [reflexivity|].
  rewrite (H x (or_introl eq_refl)). apply IH.
  intros y Hy. apply H. now right.
Qed.

(** The cards of the workflow view are a fixed set: for a list with a
    single "todo" task the summary also carries "in_progress", "review"
    and "done", each with count zero. *)
Example summary_of_one_task :
  summaryCounts [Sample.t1]
    = [("todo", 1); ("in_progress", 0); ("review", 0); ("done", 0)].
Proof. reflexivity. Qed.

(** The labels of the status charts, on the keys of the data model. *)
Example statusLabel_in_progress :
  map Analytics.statusLabel ["planning"; "in_progress"; "on_hold"]
  = ["Planning"; "In Progress"; "On Hold"].
Proof. reflexivity. Qed.

(** ** Counts of the summary against the total *)

Lemma summaryTotal_eq (tasks : list Task) :
  summaryTotal tasks
  = length (filter (fun t => str_is (status t) "todo") tasks)
    + length (filter (fun t => str_is (status t) "in_progress") tasks)
    + length (filter (fun t => str_is (status t) "review") tasks)
    + length (filter (fun t => str_is (status t) "done") tasks).
Proof. unfold summaryTotal. simpl. lia. Qed.

(** A status is counted by one card of the summary, or by none. *)
Lemma one_card_per_status (st : option string) :
  Nat.b2n (str_is st "todo") + Nat.b2n (str_is st "in_progress")
  + Nat.b2n (str_is st "review") + Nat.b2n (str_is st "done")
  = Nat.b2n (summarized st).
Proof.
  destruct st as [s|]; [|reflexivity].
  unfold str_is, summarized, WorkflowView.summaryStatuses. simpl.
  destruct (String.eqb_spec s "todo") as [->|_]; [reflexivity|].
  destruct (String.eqb_spec s "in_progress") as [->|_]; [reflexivity|].
  destruct (String.eqb_spec s "review") as [->|_]; [reflexivity|].
  destruct (String.eqb s "done"); reflexivity.
Qed.

Lemma filter_length_cons {A : Type} (f : A -> bool) (x : A) (l : list A) :
  length (filter f (x :: l)) = Nat.b2n (f x) + length (filter f l).
Proof. simpl. destruct (f x); reflexivity. Qed.

(** X21: on the workflow view every task is counted exactly once: the
    four counts of the task summary, added up, plus the number of tasks
    whose status is none of "todo", "in_progress", "review", "done"
    (missing or unknown) give the total number of tasks shown in the
    overview. *)
Theorem summary_partitions_tasks (tasks : list Task) :
  summaryTotal tasks + unsummarizedCount tasks = WorkflowView.totalTasks tasks.
Proof.
  rewrite summaryTotal_eq. unfold unsummarizedCount, WorkflowView.totalTasks.
  induction tasks as [|x r IH]; [reflexivity|].
  rewrite !filter_length_cons.
  pose proof (one_card_per_status (status x)) as H1.
  destruct (summarized (status x)); simpl in *; lia.
Qed.

Lemma unsummarized_are_null (tasks : list Task) :
  Forall status_in_model tasks ->
  unsummarizedCount tasks = nullStatusCount tasks.
Proof.
  unfold unsummarizedCount, nullStatusCount.
  induction 1 as [|x r Hx _ IH]; [reflexivity|].
  rewrite !filter_length_cons, IH. f_equal. f_equal.
  destruct Hx as [->|(s & -> & Hs)]; [reflexivity|].
  cbn [summarized].
  assert (Hex : existsb (String.eqb s) WorkflowView.summaryStatuses = true).
  { apply existsb_exists. exists s. split; [exact Hs | apply String.eqb_refl]. }
  now rewrite Hex.
Qed.

(** A task with a status the summary does not know is in no card. *)
Example unknown_status_is_left_out :
  summaryTotal [Sample.task "t9" "blocked" "p1" None] = 0
  /\ nullStatusCount [Sample.task "t9" "blocked" "p1" None] = 0
  /\ unsummarizedCount [Sample.task "t9" "blocked" "p1" None] = 1.
Proof. repeat split. Qed.

(** ** The aggregator: keys and counts *)

Section AggregateFacts.

Import Aggregator.

Lemma bump_keys (k k' : string) (m : list (string * nat)) :
  In k' (map fst (bump k m)) <-> k' = k \/ In k' (map fst m).
Proof.
  induction m as [|[k0 n] r IH]; simpl.
  - intuition.
  - destruct (String.eqb_spec k0 k) as [->|N]; simpl.
    + intuition.
    + rewrite IH. intuition.
Qed.

Lemma bump_NoDup (k : string) (m : list (string * nat)) :
  NoDup (map fst m) -> NoDup (map fst (bump k m)).
Proof.
  induction m as [|[k0 n] r IH]; simpl; intros H.
  - repeat constructor. intros [].
  - inversion H as [|? ? Hnot Hr]; subst.
    destruct (String.eqb_spec k0 k) as [->|N]; simpl.
    + now constructor.
    + constructor; [|now apply IH].
      rewrite bump_keys. intros [E|E]; [congruence | contradiction].
Qed.

Lemma bump_countOf (k k' : string) (m : list (string * nat)) :
  countOf k' (bump k m)
  = (if String.eqb k k' then 1 else 0) + countOf k' m.
Proof.
  unfold countOf. induction m as [|[k0 n] r IH]; simpl.
  - destruct (String.eqb k k'); reflexivity.
  - destruct (String.eqb_spec k0 k) as [->|N]; simpl.
    + destruct (String.eqb k k'); reflexivity.
    + destruct (String.eqb_spec k0 k') as [->|N'].
      * apply String.eqb_neq in N. rewrite String.eqb_sym in N.
        now rewrite N.
      * exact IH.
Qed.

Lemma bump_sum (k : string) (m : list (string * nat)) :
  list_sum (map snd (bump k m)) = S (list_sum (map snd m)).
Proof.
  induction m as [|[k0 n] r IH]; simpl; [reflexivity|].
  destruct (String.eqb k0 k); simpl; [reflexivity | rewrite IH; lia].
Qed.

Lemma bump_positive (k : string) (m : list (string * nat)) :
  Forall (fun e => 1 <= snd e) m -> Forall (fun e => 1 <= snd e) (bump k m).
Proof.
  induction m as [|[k0 n] r IH]; simpl; intros H.
  - repeat constructor.
  - inversion H; subst. destruct (String.eqb k0 k); constructor; simpl in *;
      auto; lia.
Qed.

Lemma lookup_of_entry (k : string) (n : nat) (m : list (string * nat)) :
  NoDup (map fst m) -> In (k, n) m -> WorkflowView.lookup k m = Some n.
Proof.
  induction m as [|[k0 n0] r IH]; simpl; intros Hnd Hin; [contradiction|].
  inversion Hnd as [|? ? Hnot Hr]; subst.
  destruct Hin as [E|Hin].
  - injection E as -> ->. now rewrite String.eqb_refl.
  - destruct (String.eqb_spec k0 k) as [->|N]; [|now apply IH].
    exfalso. apply Hnot. apply in_map_iff. now exists (k, n).
Qed.

Variable A : Type.
Variable keyFn : A -> option string.

(** What the fold keeps, from any mapping it starts with. *)
Lemma aggregate_from (items : list A) :
  forall m,
    NoDup (map fst m) -> Forall (fun e => 1 <= snd e) m ->
    let out := fold_left (aggregate_step keyFn) items m in
    NoDup (map fst out)
    /\ Forall (fun e => 1 <= snd e) out
    /\ (forall k, In k (map fst out)
                  <-> In k (map fst m)
                      \/ exists x, In x items /\ keyFn x = Some k)
    /\ (forall k, countOf k out = countOf k m + keyCount keyFn k items)
    /\ list_sum (map snd out) + excludedCount keyFn items
       = list_sum (map snd m) + length items.
Proof.
  induction items as [|x r IH]; intros m Hnd Hpos; cbn [fold_left].
  - cbv zeta. split; [exact Hnd|]. split; [exact Hpos|]. split; [|split].
    + intros k. split; [auto | intros [H|(x & [] & _)]; exact H].
    + intros k. unfold keyCount. simpl. lia.
    + unfold excludedCount. simpl. lia.
  - assert (Hnd' : NoDup (map fst (aggregate_step keyFn m x)))
      by (unfold aggregate_step; destruct (keyFn x); auto using bump_NoDup).
    assert (Hpos' : Forall (fun e => 1 <= snd e) (aggregate_step keyFn m x))
      by (unfold aggregate_step; destruct (keyFn x); auto using bump_positive).
    destruct (IH _ Hnd' Hpos') as (I1 & I2 & I3 & I4 & I5).
    split; [exact I1|]. split; [exact I2|]. split; [|split].
    + intros k. rewrite I3. unfold aggregate_step.
      destruct (keyFn x) as [kx|] eqn:Kx.
      * rewrite bump_keys. split.
        -- intros [[->|H]|(y & Hy & Ky)]; auto.
           ++ right. exists x. split; [now left | exact Kx].
           ++ right. exists y. split; [now right | exact Ky].
        -- intros [H|(y & [<-|Hy] & Ky)]; auto.
           ++ left. left. congruence.
           ++ right. now exists y.
      * split.
        -- intros [H|(y & Hy & Ky)]; auto.
           right. exists y. split; [now right | exact Ky].
        -- intros [H|(y & [<-|Hy] & Ky)]; auto; [congruence|].
           right. now exists y.
    + intros k. rewrite I4. unfold keyCount. rewrite filter_length_cons.
      assert (Hk : has_key keyFn k x
                   = match keyFn x with
                     | Some k' => String.eqb k' k
                     | None => false
                     end) by reflexivity.
      rewrite Hk. unfold aggregate_step. destruct (keyFn x) as [kx|].
      * rewrite bump_countOf. destruct (String.eqb kx k); simpl; lia.
      * simpl. lia.
    + unfold excludedCount in *. rewrite filter_length_cons.
      assert (Hs : aggregate_step keyFn m x
                   = match keyFn x with
                     | Some k => bump k m
                     | None => m
                     end) by reflexivity.
      rewrite Hs in I5 |- *. destruct (keyFn x) as [kx|].
      * rewrite bump_sum in I5. simpl Nat.b2n. simpl length. lia.
      * simpl Nat.b2n. simpl length. lia.
Qed.

Lemma aggregate_facts (items : list A) :
  NoDup (map fst (aggregate items keyFn))
  /\ Forall (fun e => 1 <= snd e) (aggregate items keyFn)
  /\ (forall k, In k (map fst (aggregate items keyFn))
                <-> exists x, In x items /\ keyFn x = Some k)
  /\ (forall k, countOf k (aggregate items keyFn) = keyCount keyFn k items)
  /\ list_sum (map snd (aggregate items keyFn)) + excludedCount keyFn items
     = length items.
Proof.
  destruct (aggregate_from items (m := [])) as (H1 & H2 & H3 & H4 & H5);
    [constructor | constructor |].
  change (fold_left (aggregate_step keyFn) items []) with (aggregate items keyFn) in *.
  split; [exact H1|]. split; [exact H2|]. split; [|split].
  - intros k. rewrite H3. simpl. intuition.
  - intros k. rewrite H4. reflexivity.
  - simpl in H5. exact H5.
Qed.

End AggregateFacts.

(** C3: for every input collection and every key function, the grouped
    aggregation has exactly the keys that occur in the input, each once: a
    key that occurs, even a single time, is in the mapping with the number
    of its occurrences, which is at least one, and no key absent from the
    input is in it; there is no entry with count zero. *)
Theorem aggregate_keys_are_the_keys_seen :
  forall (A : Type) (keyFn : A -> option string) (items : list A),
    (forall k, In k (map fst (Aggregator.aggregate items keyFn))
               <-> exists x, In x items /\ keyFn x = Some k)
    /\ NoDup (map fst (Aggregator.aggregate items keyFn))
    /\ (forall k n, In (k, n) (Aggregator.aggregate items keyFn) ->
          n = keyCount keyFn k items /\ 1 <= n)
    /\ (forall x k, In x items -> keyFn x = Some k ->
          In (k, keyCount keyFn k items) (Aggregator.aggregate items keyFn)).
Proof.
  intros A keyFn items.
  destruct (aggregate_facts keyFn items) as (Hnd & Hpos & Hkeys & Hcount & _).
  split; [exact Hkeys|]. split; [exact Hnd|]. split.
  - intros k n Hin. split.
    + rewrite <- Hcount. unfold countOf.
      now rewrite (@lookup_of_entry _ _ _ Hnd Hin).
    + exact (proj1 (Forall_forall _ _) Hpos (k, n) Hin).
  - intros x k Hx Hk.
    assert (Hin : In k (map fst (Aggregator.aggregate items keyFn)))
      by (apply Hkeys; now exists x).
    apply in_map_iff in Hin. destruct Hin as ([k' n] & Hfst & Hin).
    simpl in Hfst. subst k'.
    replace (keyCount keyFn k items) with n; [exact Hin|].
    rewrite <- Hcount. unfold countOf.
    now rewrite (@lookup_of_entry _ _ _ Hnd Hin).
Qed.

Lemma aggregate_keys_are_the_keys_seen_witness :
  In ("todo", 1)
     (Aggregator.aggregate [Sample.t3; Sample.t1; Sample.t2; Sample.t3] status).
Proof.
  destruct (@aggregate_keys_are_the_keys_seen Task status
              [Sample.t3; Sample.t1; Sample.t2; Sample.t3])
    as (_ & _ & _ & H).
  apply (H Sample.t1 "todo").
  - simpl. tauto.
  - reflexivity.
Defined.

(** C4: for every task set, empty or not, the counts of the status
    aggregation, added up, plus the number of tasks left out of it because
    their status is null or missing, give the total count of the tasks:
    such a task is in no entry of the mapping and is still counted in the
    total.  The same holds for every collection and key function. *)
Theorem aggregate_counts_sum_to_total :
  forall (tasks : list Task) (A : Type) (keyFn : A -> option string)
         (items : list A),
    list_sum (map snd (Aggregator.aggregate tasks status))
      + nullStatusCount tasks
    = Aggregator.totalCount tasks
    /\ list_sum (map snd (Aggregator.aggregate tasks status))
       = length (filter (fun t => match status t with
                                  | Some _ => true
                                  | None => false
                                  end) tasks)
    /\ list_sum (map snd (Aggregator.aggregate items keyFn))
         + excludedCount keyFn items
       = Aggregator.totalCount items.
Proof.
  intros tasks A keyFn items.
  destruct (aggregate_facts status tasks) as (_ & _ & _ & _ & Hsum).
  destruct (aggregate_facts keyFn items) as (_ & _ & _ & _ & Hsum').
  split; [exact Hsum|]. split; [|exact Hsum'].
  assert (Hpart : length (filter (fun t => match status t with
                                            | Some _ => true
                                            | None => false
                                            end) tasks)
                  + nullStatusCount tasks = length tasks).
  { unfold nullStatusCount. clear. induction tasks as [|x r IH];
      [reflexivity|]. cbn [filter]. destruct (status x); simpl; lia. }
  unfold excludedCount, nullStatusCount in *. lia.
Qed.

(** The status aggregation of a list with a task without status. *)
Example aggregate_with_null_status :
  Aggregator.aggregate
    [Sample.t1; with_status Sample.t2 None; Sample.t3; Sample.t1] status
  = [("todo", 2); ("done", 1)].
Proof. reflexivity. Qed.

(** ** The aggregator on empty input *)

Lemma ratio_defined (n total : nat) : exists q, Aggregator.ratio n total = Some q.
Proof.
  unfold Aggregator.ratio. destruct total as [|m]; simpl; eauto.
Qed.

(** The guard keeps the zero divisor away from [divide]. *)
Lemma ratio_divides_only_by_positive (n total : nat) :
  Aggregator.divide n 0 = None
  /\ (total <> 0 -> Aggregator.ratio n total = Aggregator.divide n total)
  /\ Aggregator.ratio n 0 = Some 0%Q.
Proof.
  split; [reflexivity|]. split; [|reflexivity].
  intros H. unfold Aggregator.ratio. destruct total; [congruence | reflexivity].
Qed.

(** C7: empty input is not an error and the division by a zero task count
    is guarded: [aggregate] of no item is the empty mapping, [totalCount]
    and [overdueCount] of no item are 0, both ratios are 0 when there is no
    task, and on every input the ratios have a value, so that the division
    is never reached with a zero divisor.  The front end agrees on its
    side: an empty or missing task list loads without error, with total 0,
    every count 0 and no edge. *)
Theorem empty_input_gives_empty_aggregates :
  forall (A : Type) (keyFn : A -> option string) (due : Task -> option Z)
         (now : Z) (items : list Task) (st : WorkflowView.State)
         (p : option Project),
    Aggregator.aggregate [] keyFn = []
    /\ Aggregator.totalCount (@nil A) = 0
    /\ Aggregator.overdueCount due [] now = 0
    /\ Aggregator.completionRatio [] = Some 0%Q
    /\ Aggregator.overdueRatio due [] now = Some 0%Q
    /\ (exists q, Aggregator.completionRatio items = Some q)
    /\ (exists q, Aggregator.overdueRatio due items now = Some q)
    /\ (forall n, Aggregator.ratio n 0 = Some 0%Q
                  /\ Aggregator.divide n 0 = None)
    /\ WorkflowView.totalTasks [] = 0
    /\ Forall (fun c => WorkflowView.card_count c = 0)
              (WorkflowView.taskSummary [])
    /\ WorkflowView.taskEdges (WorkflowView.taskNodes []) = Some []
    /\ WorkflowView.st_toasts
         (WorkflowView.fetchData st (Resolved p) (Resolved None))
       = WorkflowView.st_toasts st.
Proof.
  intros A keyFn due now items st p.
  repeat (split; [reflexivity|]).
  split; [apply ratio_defined|]. split; [apply ratio_defined|].
  split; [intros n; split; reflexivity|].
  split; [reflexivity|].
  split; [repeat constructor|].
  split; reflexivity.
Qed.

(** The example of the spec: four tasks, two done, one overdue and open,
    one open and due later. *)
Example ratios_of_four_tasks :
  let due := due_time (Sample.browser 1710115200000) in
  let tasks := [Sample.t3; with_status Sample.t1 (Some "done");
                Sample.t1; Sample.t2] in
  Aggregator.completionRatio tasks = Some (2 # 4)
  /\ Aggregator.overdueRatio due tasks 1710115200000 = Some (1 # 4)
  /\ Aggregator.aggregate tasks status = [("done", 2); ("todo", 1);
                                           ("in_progress", 1)].
Proof. repeat split. Qed.

(** ** Missing fields and unmatched references on the task card *)

Lemma card_formatDate_missing (w : World) (t : Task) (d : option string) :
  falsy_str d = true -> TaskCard.formatDate w t d = inl "No due date".
Proof. intros H. unfold TaskCard.formatDate. now rewrite H. Qed.

Lemma node_formatDate_missing (w : World) (st d : option string) :
  falsy_str d = true -> TaskNode.formatDate w st d = None.
Proof. intros H. unfold TaskNode.formatDate. now rewrite H. Qed.

(** A task without status is the one input on which the render throws. *)
Lemma render_throws_iff (w : World) (t : Task) (projects : list Project)
    (users : list User) :
  TaskCard.render w t projects users = TaskCard.ThrowsTypeError
  <-> status t = None.
Proof.
  unfold TaskCard.render. destruct (status t); split; congruence.
Qed.

(** ** The health scorer: failure and missing fields *)





(** The example of the spec, under one choice of cutpoints and rules: two
    of four tasks done and one overdue give a label among "Good" and
    "At Risk" and exactly one risk factor, about the overdue tasks; the
    project has no end date, and the rule on the schedule adds nothing. *)
Example assessment_of_four_tasks :
  HealthScorer.assess SamplePolicy.labelOf SamplePolicy.recommendationRules
    SamplePolicy.riskRules SamplePolicy.predict
    (due_time (Sample.browser 1710115200000)) 1710115200000
    SamplePolicy.project
    [Sample.t3; with_status Sample.t1 (Some "done"); Sample.t1; Sample.t2]
  = inr {| HealthScorer.health_label := HealthScorer.Good;
           HealthScorer.recommendations := [];
           HealthScorer.risk_factors := ["Some tasks are overdue"];
           HealthScorer.predicted_completion := "Not enough data" |}.
Proof. reflexivity. Qed.

(** ** The insights dialog *)

(** The dialog only displays the label it receives; the two labels below
    "Good" get the same badge. *)
Example health_badges :
  map Projects.healthBadgeVariant
      [Some "Excellent"; Some "Good"; Some "At Risk"; Some "Critical"; None]
  = ["default"; "secondary"; "destructive"; "destructive"; "destructive"].
Proof. reflexivity. Qed.

(** ** The loop of the workflow view on a list of five tasks *)

Example edges_of_five_tasks :
  option_map (map (fun e => (WorkflowView.edge_id e, WorkflowView.source e,
                             WorkflowView.target e, WorkflowView.animated e)))
    (WorkflowView.taskEdges
       (WorkflowView.taskNodes
          [Sample.t1; Sample.t2; Sample.t3; Sample.t4; Sample.t5]))
  = Some [("e0-1", "t1", "t2", false); ("e3-4", "t4", "t5", true)].
Proof. reflexivity. Qed.

Example positions_of_five_tasks :
  map (fun n => (WorkflowView.pos_x (WorkflowView.position n),
                 WorkflowView.pos_y (WorkflowView.position n)))
      (WorkflowView.taskNodes
         [Sample.t1; Sample.t2; Sample.t3; Sample.t4; Sample.t5])
  = [(50, 50); (330, 50); (610, 50); (890, 50); (50, 200)].
Proof. reflexivity. Qed.

(** * Further properties of the components *)

(** ** The layout and the edges of the workflow view *)

Lemma grid_index_unique (i j : nat) :
  i mod 4 * 280 + 50 = j mod 4 * 280 + 50 ->
  i / 4 * 150 + 50 = j / 4 * 150 + 50 -> i = j.
Proof.
  intros Hx Hy.
  rewrite (Nat.div_mod_eq i 4), (Nat.div_mod_eq j 4). lia.
Qed.

(** X1: the grid layout gives every node its own place: two nodes at the
    same position are the same node of the list, and no node is placed to
    the right of the fourth column. *)
Theorem node_positions_are_distinct :
  forall (tasks : list Task) (i j : nat) (n m : WorkflowView.Node),
    nth_error (WorkflowView.taskNodes tasks) i = Some n ->
    nth_error (WorkflowView.taskNodes tasks) j = Some m ->
    (WorkflowView.position n = WorkflowView.position m -> i = j)
    /\ WorkflowView.pos_x (WorkflowView.position n) <= 890
    /\ WorkflowView.pos_y (WorkflowView.position n) = i / 4 * 150 + 50.
Proof.
  intros tasks i j n m Hn Hm.
  rewrite taskNodes_nth in Hn, Hm.
  destruct (nth_error tasks i) as [a|]; [|discriminate].
  destruct (nth_error tasks j) as [b|]; [|discriminate].
  injection Hn as <-. injection Hm as <-.
  cbn [WorkflowView.taskNode WorkflowView.position WorkflowView.pos_x
       WorkflowView.pos_y].
  split; [|split].
  - intros H. injection H as Hx Hy. now apply grid_index_unique.
  - pose proof (Nat.mod_upper_bound i 4). lia.
  - reflexivity.
Qed.

Lemma node_positions_are_distinct_witness :
  WorkflowView.pos_x
    (WorkflowView.position (WorkflowView.taskNode Sample.t2 1)) <= 890.
Proof.
  apply (@node_positions_are_distinct
           [Sample.t1; Sample.t2] 1 0
           (WorkflowView.taskNode Sample.t2 1)
           (WorkflowView.taskNode Sample.t1 0)); reflexivity.
Defined.

Lemma mapi_from_map {A B C : Type} (f : A -> nat -> B) (g : B -> C)
    (h : A -> C) (l : list A) :
  (forall x i, g (f x i) = h x) ->
  forall i, map g (WorkflowView.mapi_from f i l) = map h l.
Proof.
  intros Hgf. induction l as [|x r IH]; intros i; simpl;
    [|rewrite Hgf, IH]; reflexivity.
Qed.

(** X2: a load whose two requests succeed shows one node per task, in the
    order of the list and under the task's own id, and reports no error;
    a load with a rejected request changes nothing but the loading flag
    and the toasts. *)
Theorem fetch_shows_tasks_or_keeps_view :
  forall (st : WorkflowView.State) (p : option Project) (tasks : list Task)
         (pr : Response (option Project))
         (tr : Response (option (list Task))),
    pr = Rejected \/ tr = Rejected ->
    let ok := WorkflowView.fetchData st (Resolved p) (Resolved (Some tasks)) in
    let ko := WorkflowView.fetchData st pr tr in
    map WorkflowView.node_id (WorkflowView.st_nodes ok) = map task_id tasks
    /\ map (fun n => WorkflowView.nd_task (WorkflowView.data n))
           (WorkflowView.st_nodes ok) = tasks
    /\ WorkflowView.st_tasks ok = tasks
    /\ WorkflowView.st_toasts ok = WorkflowView.st_toasts st
    /\ WorkflowView.st_project ko = WorkflowView.st_project st
    /\ WorkflowView.st_tasks ko = WorkflowView.st_tasks st
    /\ WorkflowView.st_nodes ko = WorkflowView.st_nodes st
    /\ WorkflowView.st_edges ko = WorkflowView.st_edges st
    /\ WorkflowView.st_loading ko = false
    /\ WorkflowView.st_toasts ko
       = WorkflowView.st_toasts st
         ++ [ToastError "Failed to load workflow data"].
Proof.
  intros st p tasks pr tr Hrej ok ko.
  assert (Hok : ok = {| WorkflowView.st_project := p;
                        WorkflowView.st_tasks := tasks;
                        WorkflowView.st_nodes := WorkflowView.taskNodes tasks;
                        WorkflowView.st_edges :=
                          flat_map (edges_at tasks) (seq 0 (length tasks - 1));
                        WorkflowView.st_loading := false;
                        WorkflowView.st_toasts := WorkflowView.st_toasts st |}).
  { unfold ok, WorkflowView.fetchData. now rewrite taskEdges_taskNodes. }
  rewrite Hok. cbn [WorkflowView.st_nodes WorkflowView.st_tasks
                    WorkflowView.st_toasts].
  split. { apply mapi_from_map. reflexivity. }
  split. { unfold WorkflowView.taskNodes.
           rewrite (mapi_from_map _ _ (fun t => t)); [apply map_id|reflexivity]. }
  split; [reflexivity|]. split; [reflexivity|].
  unfold ko, WorkflowView.fetchData.
  destruct Hrej as [-> | ->]; [|destruct pr]; repeat split.
Qed.

Lemma fetch_shows_tasks_or_keeps_view_witness :
  map WorkflowView.node_id
      (WorkflowView.st_nodes
         (WorkflowView.fetchData
            {| WorkflowView.st_project := None; WorkflowView.st_tasks := [];
               WorkflowView.st_nodes := []; WorkflowView.st_edges := [];
               WorkflowView.st_loading := true;
               WorkflowView.st_toasts := [] |}
            (Resolved (Some Sample.p1))
            (Resolved (Some [Sample.t1; Sample.t2]))))
  = ["t1"; "t2"].
Proof.
  apply (@fetch_shows_tasks_or_keeps_view
           {| WorkflowView.st_project := None; WorkflowView.st_tasks := [];
              WorkflowView.st_nodes := []; WorkflowView.st_edges := [];
              WorkflowView.st_loading := true;
              WorkflowView.st_toasts := [] |}
           (Some Sample.p1) [Sample.t1; Sample.t2] Rejected Rejected).
  left. reflexivity.
Defined.

Lemma firstn_In {A : Type} (n : nat) (l : list A) (x : A) :
  In x (firstn n l) -> In x l.
Proof.
  intros H. rewrite <- (firstn_skipn n l). apply in_or_app. now left.
Qed.

(** X3: a card of the task summary lists the first three tasks of its
    status, in the order of the task list, and accounts for the others: the
    tasks shown and the "+N more" add up to the count, and the "more" line
    is present exactly when the status has more than three tasks. *)
Theorem summary_card_accounts_for_every_task :
  forall (tasks : list Task) (st : string),
    let c := WorkflowView.summaryCard tasks st in
    WorkflowView.card_shown c
      = firstn 3 (filter (fun t => str_is (status t) st) tasks)
    /\ length (WorkflowView.card_shown c) <= 3
    /\ length (WorkflowView.card_shown c)
       + match WorkflowView.card_more c with Some n => n | None => 0 end
       = WorkflowView.card_count c
    /\ (WorkflowView.card_more c = None <-> WorkflowView.card_count c <= 3)
    /\ (forall n, WorkflowView.card_more c = Some n -> 1 <= n)
    /\ (forall t, In t (WorkflowView.card_shown c) ->
          In t tasks /\ status t = Some st).
Proof.
  intros tasks st c. unfold c, WorkflowView.summaryCard.
  cbn [WorkflowView.card_shown WorkflowView.card_more WorkflowView.card_count].
  set (l := filter (fun t => str_is (status t) st) tasks).
  split; [reflexivity|].
  rewrite length_firstn.
  destruct (3 <? length l) eqn:H3;
    [apply Nat.ltb_lt in H3 | apply Nat.ltb_ge in H3].
  - repeat split; try lia; try discriminate.
    + intros n Hn. injection Hn as <-. lia.
    + apply firstn_In in H. apply filter_In in H. tauto.
    + apply firstn_In in H. apply filter_In in H.
      now apply str_is_spec.
  - repeat split; try lia; try discriminate; auto.
    + apply firstn_In in H. apply filter_In in H. tauto.
    + apply firstn_In in H. apply filter_In in H.
      now apply str_is_spec.
Qed.

Lemma nth_error_key_unique {A : Type} (key : A -> string) (l : list A) :
  NoDup (map key l) ->
  forall i j a b,
    nth_error l i = Some a -> nth_error l j = Some b ->
    key a = key b -> i = j.
Proof.
  intros Hnd i j a b Ha Hb Hk.
  apply (proj1 (NoDup_nth_error (map key l)) Hnd).
  - rewrite length_map. apply nth_error_Some. congruence.
  - rewrite !nth_error_map, Ha, Hb. simpl. now rewrite Hk.
Qed.

(** X4: with distinct task ids, the edges created at load time never meet:
    no edge ends where another starts, no edge is a loop, and two edges
    with the same source or the same target are the same edge.  The
    diagram is a set of separate pairs, never a chain. *)
Theorem load_edges_never_chain :
  forall (tasks : list Task) (es : list WorkflowView.Edge)
         (e1 e2 : WorkflowView.Edge),
    NoDup (map task_id tasks) ->
    WorkflowView.taskEdges (WorkflowView.taskNodes tasks) = Some es ->
    In e1 es -> In e2 es ->
    WorkflowView.source e1 <> WorkflowView.target e2
    /\ (WorkflowView.source e1 = WorkflowView.source e2 -> e1 = e2)
    /\ (WorkflowView.target e1 = WorkflowView.target e2 -> e1 = e2).
Proof.
  intros tasks es e1 e2 Hnd Hes H1 H2.
  rewrite taskEdges_taskNodes in Hes. injection Hes as <-.
  apply in_flat_map in H1. destruct H1 as (i & _ & H1).
  apply in_flat_map in H2. destruct H2 as (j & _ & H2).
  apply in_edges_at in H1.
  destruct H1 as (Hi & _ & s1 & t1 & Hs1 & Ht1 & ->).
  apply in_edges_at in H2.
  destruct H2 as (Hj & _ & s2 & t2 & Hs2 & Ht2 & ->).
  pose proof (nth_error_key_unique task_id tasks Hnd) as U.
  cbn [edge_between WorkflowView.source WorkflowView.target].
  split; [|split].
  - intros E. pose proof (U _ _ _ _ Hs1 Ht2 E) as Hij.
    pose proof (Nat.div_mod_eq i 3). pose proof (Nat.div_mod_eq j 3). lia.
  - intros E. pose proof (U _ _ _ _ Hs1 Hs2 E) as Hij. subst j.
    congruence.
  - intros E. pose proof (U _ _ _ _ Ht1 Ht2 E) as Hij.
    assert (i = j) by lia. subst j. congruence.
Qed.

Lemma load_edges_never_chain_witness :
  WorkflowView.source (edge_between 3 Sample.t4 Sample.t5)
  <> WorkflowView.target (edge_between 0 Sample.t1 Sample.t2).
Proof.
  apply (@load_edges_never_chain
           [Sample.t1; Sample.t2; Sample.t3; Sample.t4; Sample.t5]
           [edge_between 0 Sample.t1 Sample.t2;
            edge_between 3 Sample.t4 Sample.t5]
           (edge_between 3 Sample.t4 Sample.t5)
           (edge_between 0 Sample.t1 Sample.t2)).
  - repeat constructor; simpl; intuition discriminate.
  - reflexivity.
  - simpl. tauto.
  - simpl. tauto.
Defined.

Lemma third_step (m : nat) :
  (S m + 2) / 3 = (m + 2) / 3 + (if m mod 3 =? 0 then 1 else 0).
Proof.
  pose proof (Nat.div_mod_eq m 3) as Hm.
  pose proof (Nat.mod_upper_bound m 3) as Hb.
  pose proof (Nat.div_mod_eq (m + 2) 3) as H2.
  pose proof (Nat.mod_upper_bound (m + 2) 3) as Hb2.
  pose proof (Nat.div_mod_eq (S m + 2) 3) as H3.
  pose proof (Nat.mod_upper_bound (S m + 2) 3) as Hb3.
  destruct (m mod 3 =? 0) eqn:E;
    [apply Nat.eqb_eq in E | apply Nat.eqb_neq in E]; lia.
Qed.

Lemma every_third_count (m : nat) :
  length (filter (fun i => i mod 3 =? 0) (seq 0 m)) = (m + 2) / 3.
Proof.
  induction m as [|m IH]; [reflexivity|].
  rewrite seq_S, filter_app, length_app, IH, third_step.
  cbn [filter Nat.add]. destruct (m mod 3 =? 0); reflexivity.
Qed.

(** X5: a list of n tasks is loaded with (n + 1) / 3 edges (rounded
    down): none for fewer than two tasks, and one more for every three
    tasks from the second on. *)
Theorem load_edge_count :
  forall (tasks : list Task),
    exists es,
      WorkflowView.taskEdges (WorkflowView.taskNodes tasks) = Some es
      /\ length es = (length tasks + 1) / 3.
Proof.
  intros tasks. eexists. split; [apply taskEdges_taskNodes|].
  rewrite flat_map_edges_length.
  - rewrite every_third_count.
    destruct tasks as [|a r]; [reflexivity|]. simpl length.
    f_equal. lia.
  - apply Forall_forall. intros i Hi. apply in_seq in Hi. lia.
Qed.

(** ** Creating, updating and filtering tasks *)

Lemma filter_other_ids (id : string) (l : list Task) :
  ~ In id (map task_id l) ->
  filter (fun t => negb (String.eqb (task_id t) id)) l = l.
Proof.
  induction l as [|x r IH]; intros Hnot; simpl; [reflexivity|].
  destruct (String.eqb_spec (task_id x) id) as [E|_]; simpl.
  - exfalso. apply Hnot. simpl. now left.
  - f_equal. apply IH. intros H. apply Hnot. simpl. now right.
Qed.

(** X6: creating a task and then deleting it again gives back the task
    list as it was, provided the id of the new task was not in use; the
    new task is appended at the end and the form is closed. *)
Theorem create_then_delete_restores_the_list :
  forall (st : Tasks.State) (fs : TaskList.FormState) (d : Task),
    ~ In (task_id d) (map task_id (Tasks.tasks st)) ->
    let created := TaskList.handleCreateTask st fs (Resolved d) in
    Tasks.tasks (fst created) = Tasks.tasks st ++ [d]
    /\ TaskList.showForm (snd created) = false
    /\ Tasks.tasks
         (Tasks.handleDeleteTask (fst created) true (Resolved tt) (task_id d))
       = Tasks.tasks st.
Proof.
  intros st fs d Hfresh created. unfold created.
  cbn [TaskList.handleCreateTask fst snd Tasks.handleDeleteTask negb
       Tasks.tasks TaskList.showForm].
  split; [reflexivity|]. split; [reflexivity|].
  rewrite filter_app, (filter_other_ids _ _ Hfresh). simpl.
  rewrite String.eqb_refl. simpl. apply app_nil_r.
Qed.

Lemma create_then_delete_restores_the_list_witness :
  Tasks.tasks
    (Tasks.handleDeleteTask
       (fst (TaskList.handleCreateTask
               {| Tasks.tasks := [Sample.t1; Sample.t2]; Tasks.toasts := [] |}
               {| TaskList.showForm := true; TaskList.editingTask := None |}
               (Resolved Sample.t3)))
       true (Resolved tt) "t3")
  = [Sample.t1; Sample.t2].
Proof.
  apply (@create_then_delete_restores_the_list
           {| Tasks.tasks := [Sample.t1; Sample.t2]; Tasks.toasts := [] |}
           {| TaskList.showForm := true; TaskList.editingTask := None |}
           Sample.t3).
  simpl. intuition discriminate.
Defined.

Lemma update_map_ids (e d : Task) (l : list Task) :
  task_id d = task_id e ->
  map task_id (map (fun t => if String.eqb (task_id t) (task_id e)
                             then d else t) l)
  = map task_id l.
Proof.
  intros Hid. induction l as [|x r IH]; simpl; [reflexivity|].
  rewrite IH. f_equal.
  destruct (String.eqb_spec (task_id x) (task_id e)); congruence.
Qed.

Lemma update_map_absent (e d : Task) (l : list Task) :
  ~ In (task_id e) (map task_id l) ->
  map (fun t => if String.eqb (task_id t) (task_id e) then d else t) l = l.
Proof.
  induction l as [|x r IH]; intros Hnot; simpl; [reflexivity|].
  destruct (String.eqb_spec (task_id x) (task_id e)) as [E|_].
  - exfalso. apply Hnot. simpl. now left.
  - f_equal. apply IH. intros H. apply Hnot. simpl. now right.
Qed.

(** X7: a successful update, answered with a task of the same id as the
    task under edit, keeps the sequence of ids of the list; every task with
    another id stays in the list, the answer replaces the edited one, and
    the form is closed and cleared.  When the edited task is no longer in
    the list, the list is unchanged. *)
Theorem update_keeps_the_ids :
  forall (st : Tasks.State) (fs : TaskList.FormState) (e d : Task),
    TaskList.editingTask fs = Some e ->
    task_id d = task_id e ->
    let updated := TaskList.handleUpdateTask st fs (Resolved d) in
    map task_id (Tasks.tasks (fst updated)) = map task_id (Tasks.tasks st)
    /\ (forall t, In t (Tasks.tasks st) -> task_id t <> task_id e ->
          In t (Tasks.tasks (fst updated)))
    /\ (forall t, In t (Tasks.tasks (fst updated)) ->
          task_id t = task_id e -> t = d)
    /\ (~ In (task_id e) (map task_id (Tasks.tasks st)) ->
          Tasks.tasks (fst updated) = Tasks.tasks st)
    /\ snd updated
       = {| TaskList.showForm := false; TaskList.editingTask := None |}.
Proof.
  intros st fs e d He Hid updated. unfold updated, TaskList.handleUpdateTask.
  rewrite He. cbn [fst snd Tasks.tasks].
  split; [now apply update_map_ids|]. split; [|split; [|split]].
  - intros t Hin Hne. apply in_map_iff. exists t. split; [|exact Hin].
    destruct (String.eqb_spec (task_id t) (task_id e)); congruence.
  - intros t Hin Ht. apply in_map_iff in Hin. destruct Hin as (x & Hx & _).
    destruct (String.eqb_spec (task_id x) (task_id e)); congruence.
  - apply update_map_absent.
  - reflexivity.
Qed.

Lemma update_keeps_the_ids_witness :
  map task_id
      (Tasks.tasks
         (fst (TaskList.handleUpdateTask
                 {| Tasks.tasks := [Sample.t1; Sample.t2]; Tasks.toasts := [] |}
                 {| TaskList.showForm := true;
                    TaskList.editingTask := Some Sample.t2 |}
                 (Resolved (with_status Sample.t2 (Some "done"))))))
  = ["t1"; "t2"].
Proof.
  apply (@update_keeps_the_ids
           {| Tasks.tasks := [Sample.t1; Sample.t2]; Tasks.toasts := [] |}
           {| TaskList.showForm := true;
              TaskList.editingTask := Some Sample.t2 |}
           Sample.t2 (with_status Sample.t2 (Some "done")));
    reflexivity.
Defined.

Lemma filter_after_update (e d : Task) (l : list Task) :
  task_id d = task_id e ->
  filter (fun t => negb (String.eqb (task_id t) (task_id e)))
    (map (fun t => if String.eqb (task_id t) (task_id e) then d else t) l)
  = filter (fun t => negb (String.eqb (task_id t) (task_id e))) l.
Proof.
  intros Hid. induction l as [|x r IH]; simpl; [reflexivity|].
  destruct (String.eqb_spec (task_id x) (task_id e)) as [E|N].
  - rewrite Hid, String.eqb_refl. simpl. exact IH.
  - apply String.eqb_neq in N. rewrite N. simpl. now rewrite IH.
Qed.

(** X8: provided the update is answered with a task of the same id as the
    task under edit, deleting that task right after the update leaves the
    same list as deleting it without the update; an update that fails, or
    that finds no task under edit, changes no task and reports the
    failure. *)
Theorem update_then_delete_is_delete :
  forall (st : Tasks.State) (fs : TaskList.FormState) (e d : Task),
    TaskList.editingTask fs = Some e ->
    task_id d = task_id e ->
    Tasks.tasks
      (Tasks.handleDeleteTask
         (fst (TaskList.handleUpdateTask st fs (Resolved d)))
         true (Resolved tt) (task_id e))
    = Tasks.tasks (Tasks.handleDeleteTask st true (Resolved tt) (task_id e))
    /\ Tasks.tasks (fst (TaskList.handleUpdateTask st fs Rejected))
       = Tasks.tasks st
    /\ Tasks.toasts (fst (TaskList.handleUpdateTask st fs Rejected))
       = Tasks.toasts st ++ [ToastError "Failed to update task"]
    /\ TaskList.handleUpdateTask st
         {| TaskList.showForm := TaskList.showForm fs;
            TaskList.editingTask := None |} (Resolved d)
       = TaskList.handleUpdateTask st
           {| TaskList.showForm := TaskList.showForm fs;
              TaskList.editingTask := None |} Rejected.
Proof.
  intros st fs e d He Hid. unfold TaskList.handleUpdateTask. rewrite He.
  cbn [fst Tasks.handleDeleteTask negb Tasks.tasks Tasks.toasts
       TaskList.editingTask].
  split; [now apply filter_after_update|]. repeat split.
Qed.

Lemma update_then_delete_is_delete_witness :
  Tasks.tasks
    (Tasks.handleDeleteTask
       (fst (TaskList.handleUpdateTask
               {| Tasks.tasks := [Sample.t1; Sample.t2]; Tasks.toasts := [] |}
               {| TaskList.showForm := true;
                  TaskList.editingTask := Some Sample.t2 |}
               (Resolved (with_status Sample.t2 (Some "done")))))
       true (Resolved tt) "t2")
  = [Sample.t1].
Proof.
  apply (@update_then_delete_is_delete
           {| Tasks.tasks := [Sample.t1; Sample.t2]; Tasks.toasts := [] |}
           {| TaskList.showForm := true;
              TaskList.editingTask := Some Sample.t2 |}
           Sample.t2 (with_status Sample.t2 (Some "done")));
    reflexivity.
Defined.

Lemma includes_empty (s : string) : includes s "" = true.
Proof. destruct s; reflexivity. Qed.

Lemma filter_all_true {A : Type} (f : A -> bool) (l : list A) :
  (forall x, In x l -> f x = true) -> filter f l = l.
Proof.
  induction l as [|x r IH]; intros H; simpl; [reflexivity|].
  rewrite (H x (or_introl eq_refl)). f_equal. apply IH.
  intros y Hy. apply H. now right.
Qed.

(** X9: with an empty search term and the three filters on "all" the page
    shows every task, in the order of the list; the "No tasks yet" notice
    appears only for an empty list. *)
Theorem default_filters_show_every_task :
  forall (toLowerCase : string -> string) (tasks : list Task),
    toLowerCase "" = "" ->
    let f := {| TaskList.searchTerm := ""; TaskList.statusFilter := "all";
                TaskList.priorityFilter := "all";
                TaskList.projectFilter := "all" |} in
    TaskList.filteredTasks toLowerCase f tasks = tasks
    /\ (TaskList.tasksGrid toLowerCase f tasks = TaskList.NoTasksYet
        <-> tasks = [])
    /\ (tasks <> [] ->
        TaskList.tasksGrid toLowerCase f tasks = TaskList.Grid tasks).
Proof.
  intros lower tasks Hlow f.
  assert (Hall : TaskList.filteredTasks lower f tasks = tasks).
  { apply filter_all_true. intros t _. unfold TaskList.matchesTask, f.
    cbn [TaskList.searchTerm TaskList.statusFilter TaskList.priorityFilter
         TaskList.projectFilter].
    rewrite Hlow, includes_empty. reflexivity. }
  split; [exact Hall|]. unfold TaskList.tasksGrid. rewrite Hall.
  destruct tasks as [|a r]; simpl.
  - split; [tauto|]. intros H. now contradiction H.
  - split; [split; discriminate | reflexivity].
Qed.

Lemma default_filters_show_every_task_witness :
  TaskList.filteredTasks lower_ascii
    {| TaskList.searchTerm := ""; TaskList.statusFilter := "all";
       TaskList.priorityFilter := "all"; TaskList.projectFilter := "all" |}
    [Sample.t1; Sample.t2]
  = [Sample.t1; Sample.t2].
Proof.
  apply (@default_filters_show_every_task lower_ascii
           [Sample.t1; Sample.t2]).
  reflexivity.
Defined.

(** X10: whatever the search term, the filtered list only holds tasks of
    the list, and a filter that is not "all" only lets through the tasks
    with exactly that status, that priority or that project; when no task
    passes although the list is not empty, the page says that no task
    matches. *)
Theorem filters_select_what_they_name :
  forall (toLowerCase : string -> string) (f : TaskList.Filters)
         (tasks : list Task) (t : Task),
    In t (TaskList.filteredTasks toLowerCase f tasks) ->
    In t tasks
    /\ (TaskList.statusFilter f <> "all" ->
        status t = Some (TaskList.statusFilter f))
    /\ (TaskList.priorityFilter f <> "all" ->
        priority t = Some (TaskList.priorityFilter f))
    /\ (TaskList.projectFilter f <> "all" ->
        project_id t = TaskList.projectFilter f)
    /\ exists cards,
         TaskList.tasksGrid toLowerCase f tasks = TaskList.Grid cards
         /\ In t cards.
Proof.
  intros lower f tasks t Hin.
  pose proof Hin as Hin'. unfold TaskList.filteredTasks in Hin'.
  apply filter_In in Hin'. destruct Hin' as [Ht Hm].
  unfold TaskList.matchesTask in Hm.
  rewrite !andb_true_iff, !orb_true_iff in Hm.
  destruct Hm as [[[_ Hst] Hpr] Hpj].
  split; [exact Ht|]. split; [|split; [|split]].
  - intros Hne. destruct Hst as [H|H].
    + apply String.eqb_eq in H. contradiction.
    + now apply str_is_spec.
  - intros Hne. destruct Hpr as [H|H].
    + apply String.eqb_eq in H. contradiction.
    + now apply str_is_spec.
  - intros Hne. destruct Hpj as [H|H].
    + apply String.eqb_eq in H. contradiction.
    + now apply String.eqb_eq.
  - unfold TaskList.tasksGrid.
    destruct (TaskList.filteredTasks lower f tasks) as [|a r] eqn:E;
      [contradiction|].
    simpl. eexists. split; [reflexivity | exact Hin].
Qed.

Lemma filters_select_what_they_name_witness :
  status Sample.t2 = Some "in_progress".
Proof.
  apply (@filters_select_what_they_name lower_ascii
           {| TaskList.searchTerm := "task"; TaskList.statusFilter := "in_progress";
              TaskList.priorityFilter := "all"; TaskList.projectFilter := "p1" |}
           [Sample.t1; Sample.t2; Sample.t4] Sample.t2).
  - simpl. tauto.
  - discriminate.
Defined.

Lemma before_T_app (d r : string) :
  no_T d = true -> before_T (String.append d (String "T" r)) = d.
Proof.
  induction d as [|c d IH]; simpl; intros H; [reflexivity|].
  apply andb_true_iff in H. destruct H as [Hc Hd].
  apply negb_true_iff in Hc. rewrite Hc. f_equal. now apply IH.
Qed.

Lemma before_T_no_T (s : string) : no_T (before_T s) = true.
Proof.
  induction s as [|c r IH]; simpl; [reflexivity|].
  destruct (Ascii.eqb c "T") eqn:E; simpl; [reflexivity|].
  now rewrite E, IH.
Qed.

(** X11: the due-date field of the edit form is the date part of an ISO
    timestamp: for a due date made of a part without T, a T and a rest, the
    field holds the first part; whatever the due date, the field holds no
    T, and a task without due date gives an empty field. *)
Theorem form_due_date_is_the_date_part :
  forall (t : Task) (d r : string),
    no_T d = true -> d <> "" ->
    due_date t = Some (String.append d (String "T" r)) ->
    TaskList.dueDateField (Some t) = d
    /\ (forall u : option Task, no_T (TaskList.dueDateField u) = true)
    /\ (forall u : Task, due_date u = None ->
          TaskList.dueDateField (Some u) = "")
    /\ TaskList.dueDateField None = "".
Proof.
  intros t d r Hd Hne Hdue. split; [|split; [|split; [|reflexivity]]].
  3: { intros u Hu. unfold TaskList.dueDateField. now rewrite Hu. }
  - unfold TaskList.dueDateField. rewrite Hdue.
    destruct d as [|c d]; [congruence|]. cbn [String.append String.eqb].
    change (String c (String.append d (String "T" r)))
      with (String.append (String c d) (String "T" r)).
    now apply before_T_app.
  - intros [u|]; [|reflexivity]. unfold TaskList.dueDateField.
    destruct (due_date u) as [s|]; [|reflexivity].
    destruct (String.eqb s ""); [reflexivity | apply before_T_no_T].
Qed.

Lemma form_due_date_is_the_date_part_witness :
  TaskList.dueDateField (Some Sample.t1) = "2024-03-10".
Proof.
  apply (@form_due_date_is_the_date_part
           Sample.t1 "2024-03-10" "00:00:00.000Z"); try reflexivity.
  discriminate.
Defined.

(** ** The project list and the project card *)

(** X12: filtering the projects throws exactly when some project has no
    description and its name does not contain the search term; with an
    empty search term it never throws, and with the status filter on
    "all" it then shows every project. *)
Theorem project_filter_throws_on_missing_description :
  forall (toLowerCase : string -> string) (searchTerm statusFilter : string)
         (projects : list ProjectList.ProjectInfo),
    toLowerCase "" = "" ->
    (ProjectList.filteredProjects toLowerCase searchTerm statusFilter projects
       = None
     <-> exists p, In p projects /\ ProjectList.pi_description p = None
                   /\ includes (toLowerCase (proj_name (ProjectList.pi_project p)))
                               (toLowerCase searchTerm) = false)
    /\ ProjectList.filteredProjects toLowerCase "" "all" projects
       = Some projects
    /\ exists out,
         ProjectList.filteredProjects toLowerCase "" statusFilter projects
         = Some out.
Proof.
  intros lower search sf projects Hlow. split; [|split].
  - induction projects as [|p r IH]; cbn [ProjectList.filteredProjects].
    + split; [discriminate | intros (p & [] & _)].
    + unfold ProjectList.matchesProject.
      destruct (includes (lower (proj_name (ProjectList.pi_project p)))
                         (lower search)) eqn:Hname;
        [|destruct (ProjectList.pi_description p) as [d|] eqn:Hdesc];
        try (split; [|reflexivity]; intros _; exists p;
             split; [now left | auto]; fail);
        (destruct (ProjectList.filteredProjects lower search sf r) as [out|];
         [ split; [discriminate|];
           intros (q & [<-|Hq] & Hd & Hn); [congruence|];
           assert (H : Some out = None) by (apply IH; now exists q);
           discriminate H
         | split; [|reflexivity]; intros _;
           destruct (proj1 IH eq_refl) as (q & Hq & Hd & Hn);
           exists q; split; [now right | auto] ]).
  - induction projects as [|p r IH]; cbn [ProjectList.filteredProjects];
      [reflexivity|].
    unfold ProjectList.matchesProject. rewrite Hlow, includes_empty, IH.
    reflexivity.
  - induction projects as [|p r [out IH]]; cbn [ProjectList.filteredProjects];
      [now exists []|].
    unfold ProjectList.matchesProject. rewrite Hlow, includes_empty, IH.
    eexists. reflexivity.
Qed.

Lemma project_filter_throws_on_missing_description_witness :
  ProjectList.filteredProjects lower_ascii "zzz" "all"
    [ {| ProjectList.pi_project := Sample.p1;
         ProjectList.pi_description := None;
         ProjectList.pi_status := Some "planning";
         ProjectList.pi_progress := Some 0%Q |} ]
  = None.
Proof.
  apply (@project_filter_throws_on_missing_description lower_ascii
           "zzz" "all"
           [ {| ProjectList.pi_project := Sample.p1;
                ProjectList.pi_description := None;
                ProjectList.pi_status := Some "planning";
                ProjectList.pi_progress := Some 0%Q |} ]).
  - reflexivity.
  - eexists. split; [left; reflexivity|]. split; reflexivity.
Defined.

Lemma Qle_bool_upward (b p q : Q) :
  Qle_bool b p = true -> (p <= q)%Q -> Qle_bool b q = true.
Proof.
  rewrite !Qle_bool_iff. intros H1 H2. now apply Qle_trans with p.
Qed.

(** X13: the colour of the progress bar is green from 80, blue from 60
    to below 80, yellow from 40 to below 60 and red below 40, so it never
    gets worse when the progress grows; a project without progress value is
    red. *)
Theorem progress_color_is_monotone :
  forall p q : Q,
    (p <= q)%Q ->
    colorRank (ProjectList.getProgressColor (Some p))
    <= colorRank (ProjectList.getProgressColor (Some q))
    /\ colorRank (ProjectList.getProgressColor None) = 0
    /\ (colorRank (ProjectList.getProgressColor (Some p)) = 3
        <-> (80 <= p)%Q)
    /\ (colorRank (ProjectList.getProgressColor (Some p)) = 0
        <-> (p < 40)%Q)
    /\ (ProjectList.getProgressColor (Some p) = "bg-green-500"
        <-> (80 <= p)%Q)
    /\ (ProjectList.getProgressColor (Some p) = "bg-blue-500"
        <-> (60 <= p)%Q /\ (p < 80)%Q)
    /\ (ProjectList.getProgressColor (Some p) = "bg-yellow-500"
        <-> (40 <= p)%Q /\ (p < 60)%Q)
    /\ (ProjectList.getProgressColor (Some p) = "bg-red-500"
        <-> (p < 40)%Q)
    /\ ProjectList.getProgressColor None = "bg-red-500".
Proof.
  intros p q Hpq.
  assert (C : forall x : Q,
             (Qle_bool 80 x = true /\ (80 <= x)%Q
              /\ ProjectList.getProgressColor (Some x) = "bg-green-500")
             \/ (Qle_bool 80 x = false /\ (60 <= x)%Q /\ (x < 80)%Q
                 /\ ProjectList.getProgressColor (Some x) = "bg-blue-500")
             \/ ((40 <= x)%Q /\ (x < 60)%Q
                 /\ ProjectList.getProgressColor (Some x) = "bg-yellow-500")
             \/ ((x < 40)%Q
                 /\ ProjectList.getProgressColor (Some x) = "bg-red-500")).
  { intros x. unfold ProjectList.getProgressColor.
    destruct (Qle_bool 80 x) eqn:H80.
    { left. apply Qle_bool_iff in H80. auto. }
    assert (x < 80)%Q
      by (apply Qnot_le_lt; intros H; apply Qle_bool_iff in H; congruence).
    destruct (Qle_bool 60 x) eqn:H60.
    { right. left. apply Qle_bool_iff in H60. auto. }
    assert (x < 60)%Q
      by (apply Qnot_le_lt; intros H'; apply Qle_bool_iff in H'; congruence).
    destruct (Qle_bool 40 x) eqn:H40.
    { right. right. left. apply Qle_bool_iff in H40. auto. }
    right. right. right. split; [|reflexivity].
    apply Qnot_le_lt. intros H'. apply Qle_bool_iff in H'. congruence. }
  split.
  { destruct (C p) as [(_ & Hp & ->)|[(_ & Hp & Hp' & ->)|[(Hp & Hp' & ->)|(Hp & ->)]]];
    destruct (C q) as [(_ & Hq & ->)|[(_ & Hq & Hq' & ->)|[(Hq & Hq' & ->)|(Hq & ->)]]];
      unfold colorRank; simpl; try lia; exfalso; lra. }
  split; [reflexivity|].
  destruct (C p) as [(_ & Hp & E)|[(_ & Hp & Hp' & E)|[(Hp & Hp' & E)|(Hp & E)]]];
    rewrite E; unfold colorRank; simpl;
    repeat split; intros; try reflexivity; try discriminate; try lra;
    match goal with H : _ /\ _ |- _ => destruct H; lra end.
Qed.

Lemma progress_color_is_monotone_witness :
  colorRank (ProjectList.getProgressColor (Some (59 # 1)))
  <= colorRank (ProjectList.getProgressColor (Some (60 # 1))).
Proof.
  apply (@progress_color_is_monotone (59 # 1) (60 # 1)). discriminate.
Defined.

(** ** The dashboard *)

Lemma dashboard_load_keeps_bounds (st : Dashboard.State) (l : DashboardLoad) :
  length (Dashboard.recentProjects st) <= 5 ->
  length (Dashboard.recentTasks st) <= 5 ->
  length (Dashboard.recentProjects (dashboardLoad st l)) <= 5
  /\ length (Dashboard.recentTasks (dashboardLoad st l)) <= 5
  /\ Dashboard.loading (dashboardLoad st l) = false
  /\ length (Dashboard.toasts (dashboardLoad st l))
     <= S (length (Dashboard.toasts st)).
Proof.
  intros Hp Ht. unfold dashboardLoad, Dashboard.fetchDashboardData.
  destruct (ld_projects l) as [[pl|]|], (ld_tasks l) as [[tl|]|],
           (ld_projectAnalytics l) as [[pa|]|],
           (ld_taskAnalytics l) as [[ta|]|];
    cbn [Dashboard.failed Dashboard.recentProjects Dashboard.recentTasks
         Dashboard.loading Dashboard.toasts Dashboard.stats];
    rewrite ?length_app, ?length_firstn; cbn [length];
    repeat split; lia.
Qed.

(** X14: however the loads of the dashboard go, the two lists of recent
    items never hold more than five entries, the loading flag is off after
    every load, and a load adds at most one error toast. *)
Theorem dashboard_recent_lists_are_short :
  forall (loads : list DashboardLoad),
    length (Dashboard.recentProjects (dashboardRun loads)) <= 5
    /\ length (Dashboard.recentTasks (dashboardRun loads)) <= 5
    /\ (loads <> [] -> Dashboard.loading (dashboardRun loads) = false)
    /\ length (Dashboard.toasts (dashboardRun loads)) <= length loads.
Proof.
  intros loads. unfold dashboardRun.
  assert (G : forall st,
             length (Dashboard.recentProjects st) <= 5 ->
             length (Dashboard.recentTasks st) <= 5 ->
             let st' := fold_left dashboardLoad loads st in
             length (Dashboard.recentProjects st') <= 5
             /\ length (Dashboard.recentTasks st') <= 5
             /\ (loads <> [] -> Dashboard.loading st' = false)
             /\ length (Dashboard.toasts st')
                <= length loads + length (Dashboard.toasts st)).
  { induction loads as [|l r IH]; intros st Hp Ht; cbn [fold_left].
    - simpl. repeat split; auto. congruence.
    - destruct (dashboard_load_keeps_bounds st l Hp Ht) as (Hp' & Ht' & Hl & Hn).
      destruct (IH _ Hp' Ht') as (A1 & A2 & A3 & A4).
      repeat split; auto.
      + intros _. destruct r as [|l' r']; [exact Hl | apply A3; discriminate].
      + simpl length. lia. }
  destruct (G Dashboard.initial) as (A1 & A2 & A3 & A4); simpl; try lia.
  repeat split; auto. simpl in A4. lia.
Qed.

(** X15: a load of the dashboard is not all-or-nothing.  When the four
    requests succeed and both analytics payloads are present, the
    statistics are replaced even if a list payload is null and the error
    toast is shown; the recent tasks are only replaced when no error is
    reported, and then by the first five fetched tasks. *)
Theorem dashboard_load_is_not_atomic :
  forall (st : Dashboard.State) (ps : option (list Project))
         (ts : option (list Task)) (pa : Analytics.ProjectAnalytics)
         (ta : Analytics.TaskAnalytics),
    ps = None \/ ts = None ->
    let st' := Dashboard.fetchDashboardData st (Resolved ps) (Resolved ts)
                 (Resolved (Some pa)) (Resolved (Some ta)) in
    Dashboard.stats st'
      = {| Dashboard.projects := Dashboard.or0 (Analytics.total_projects pa);
           Dashboard.tasks := Dashboard.or0 (Analytics.total_tasks ta);
           Dashboard.completedTasks :=
             Dashboard.or0
               (WorkflowView.lookup "done" (Analytics.tasks_by_status ta));
           Dashboard.overdueTasks :=
             Dashboard.or0 (Analytics.overdue_tasks ta) |}
    /\ Dashboard.toasts st'
       = Dashboard.toasts st ++ [ToastError "Failed to load dashboard data"]
    /\ Dashboard.recentTasks st' = Dashboard.recentTasks st
    /\ (ps = None -> Dashboard.recentProjects st' = Dashboard.recentProjects st)
    /\ (forall pl, ps = Some pl ->
          Dashboard.recentProjects st' = firstn 5 pl).
Proof.
  intros st ps ts pa ta H st'. unfold st', Dashboard.fetchDashboardData.
  destruct ps as [pl|], ts as [tl|];
    try (destruct H; discriminate);
    cbn [Dashboard.failed Dashboard.stats Dashboard.toasts
         Dashboard.recentTasks Dashboard.recentProjects];
    repeat split; try discriminate; try congruence.
Qed.

Lemma dashboard_load_is_not_atomic_witness :
  Dashboard.projects
    (Dashboard.stats
       (Dashboard.fetchDashboardData Dashboard.initial
          (Resolved None) (Resolved (Some [Sample.t1]))
          (Resolved (Some {| Analytics.total_projects := Some 2;
                             Analytics.projects_by_status := [("planning", 2)];
                             Analytics.projects_by_month := [] |}))
          (Resolved (Some {| Analytics.total_tasks := Some 1;
                             Analytics.tasks_by_status := [("todo", 1)];
                             Analytics.tasks_by_priority := [];
                             Analytics.overdue_tasks := None |}))))
  = 2.
Proof.
  pose proof (@dashboard_load_is_not_atomic Dashboard.initial
           None (Some [Sample.t1])
           {| Analytics.total_projects := Some 2;
              Analytics.projects_by_status := [("planning", 2)];
              Analytics.projects_by_month := [] |}
           {| Analytics.total_tasks := Some 1;
              Analytics.tasks_by_status := [("todo", 1)];
              Analytics.tasks_by_priority := [];
              Analytics.overdue_tasks := None |}
           (or_introl eq_refl)) as H.
  destruct H as (Hs & _). cbv zeta in Hs. rewrite Hs. reflexivity.
Defined.

(** ** Chart labels *)

Lemma upper_keeps_underscore (c : ascii) :
  Ascii.eqb (Analytics.upper c) "_" = Ascii.eqb c "_".
Proof. destruct c as [[] [] [] [] [] [] [] []]; reflexivity. Qed.

Lemma capitalize_length (s : string) :
  forall b, String.length (Analytics.capitalize_from b s) = String.length s.
Proof. induction s as [|c r IH]; intros b; simpl; [|rewrite IH]; reflexivity. Qed.

Lemma capitalize_underscores (s : string) :
  forall b, underscores (Analytics.capitalize_from b s) = underscores s.
Proof.
  induction s as [|c r IH]; intros b; simpl; [reflexivity|].
  rewrite IH. f_equal.
  destruct (Analytics.is_word c && negb b);
    [now rewrite upper_keeps_underscore | reflexivity].
Qed.

Lemma replace_underscore_length (s : string) :
  String.length (replace_underscore s) = String.length s.
Proof.
  induction s as [|c r IH]; simpl; [reflexivity|].
  destruct (Ascii.eqb c "_"); simpl; [|rewrite IH]; reflexivity.
Qed.

Lemma replace_underscore_count (s : string) :
  underscores (replace_underscore s) = pred (underscores s).
Proof.
  induction s as [|c r IH]; simpl; [reflexivity|].
  destruct (Ascii.eqb c "_") eqn:E; simpl; [reflexivity|].
  now rewrite E, IH.
Qed.

Lemma replace_underscore_get (s : string) :
  forall i, String.get i (replace_underscore s) = spaced s i.
Proof.
  unfold spaced. induction s as [|c r IH]; intros i; [reflexivity|].
  cbn [replace_underscore first_underscore].
  destruct (Ascii.eqb c "_") eqn:E.
  - destruct i as [|i]; cbn [String.get Nat.eqb]; [reflexivity|].
    destruct (String.get i r); reflexivity.
  - destruct i as [|i]; cbn [String.get].
    + destruct (first_underscore r); reflexivity.
    + rewrite IH. destruct (String.get i r); [|reflexivity].
      destruct (first_underscore r); reflexivity.
Qed.

Lemma capitalize_get (s : string) :
  forall b i,
    String.get i (Analytics.capitalize_from b s)
    = match String.get i s with
      | None => None
      | Some c =>
          Some (if Analytics.is_word c
                   && negb match i with
                           | O => b
                           | S j => match String.get j s with
                                    | Some d => Analytics.is_word d
                                    | None => false
                                    end
                           end
                then Analytics.upper c else c)
      end.
Proof.
  induction s as [|c r IH]; intros b i; [destruct i; reflexivity|].
  cbn [Analytics.capitalize_from].
  destruct i as [|i]; cbn [String.get]; [reflexivity|].
  rewrite IH. destruct (String.get i r); [|reflexivity].
  destruct i; reflexivity.
Qed.

(** X16: the label of a status key on the charts is the key, character by
    character, with its first underscore (and no other) turned into a
    space and every word character that does not follow a word character
    turned to upper case.  So the label has the length of the key and
    exactly one underscore less when the key has any: a key with two
    underscores keeps one in its label. *)
Theorem status_label_replaces_one_underscore :
  forall key : string,
    String.length (Analytics.statusLabel key) = String.length key
    /\ underscores (Analytics.statusLabel key) = pred (underscores key)
    /\ (underscores key <= 1 -> underscores (Analytics.statusLabel key) = 0)
    /\ (forall i,
          String.get i (Analytics.statusLabel key)
          = match spaced key i with
            | None => None
            | Some c =>
                Some (if Analytics.is_word c && negb (after_word key i)
                      then Analytics.upper c else c)
            end)
    /\ (forall i,
          spaced key i
          = match String.get i key with
            | None => None
            | Some c => Some (if match first_underscore key with
                                 | Some j => Nat.eqb j i
                                 | None => false
                                 end
                              then " "%char else c)
            end)
    /\ (forall j, first_underscore key = Some j ->
          String.get j key = Some "_"%char
          /\ forall i, i < j -> String.get i key <> Some "_"%char).
Proof.
  intros key. unfold Analytics.statusLabel.
  rewrite capitalize_length, capitalize_underscores,
    replace_underscore_length, replace_underscore_count.
  split; [reflexivity|]. split; [reflexivity|]. split; [lia|].
  split; [|split; [reflexivity|]].
  - intros i. rewrite capitalize_get, replace_underscore_get.
    destruct (spaced key i); [|reflexivity].
    unfold after_word. destruct i; [reflexivity|].
    now rewrite replace_underscore_get.
  - induction key as [|c r IH]; intros j Hj; [discriminate|].
    cbn [first_underscore] in Hj. destruct (Ascii.eqb c "_") eqn:E.
    + injection Hj as <-. split; [|intros i Hi; lia].
      apply Ascii.eqb_eq in E. now subst c.
    + destruct (first_underscore r) as [k|]; [|discriminate].
      injection Hj as <-. destruct (IH k eq_refl) as [H1 H2].
      split; [exact H1|]. intros [|i] Hi; cbn [String.get].
      * intros H. injection H as ->. discriminate E.
      * apply H2. lia.
Qed.

Lemma status_label_replaces_one_underscore_witness :
  underscores (Analytics.statusLabel "in_progress") = 0.
Proof.
  apply (@status_label_replaces_one_underscore "in_progress").
  simpl. lia.
Defined.

(** ** Colours of the workflow view *)

(** X17: for nodes that have a status (a node without one is not drawn
    at all, its render throws), the card of a node and its dot on the
    minimap sort the statuses alike: two nodes have the same card colours
    exactly when they have the same minimap colour, and a node with an
    unknown status is drawn like a "todo" node in both. *)
Theorem node_and_minimap_colours_agree :
  forall (n m : WorkflowView.Node) (a b : string),
    status (WorkflowView.nd_task (WorkflowView.data n)) = Some a ->
    status (WorkflowView.nd_task (WorkflowView.data m)) = Some b ->
    (NodeStyle.getStatusColor (Some a) = NodeStyle.getStatusColor (Some b)
     <-> NodeStyle.nodeColor n = NodeStyle.nodeColor m)
    /\ (a <> "in_progress" -> a <> "review" -> a <> "done" ->
        NodeStyle.getStatusColor (Some a)
          = NodeStyle.getStatusColor (Some "todo")
        /\ NodeStyle.nodeColor n = "#6B7280"
        /\ NodeStyle.nodeColor n
           = NodeStyle.nodeColor
               (WorkflowView.taskNode (with_status
                  (WorkflowView.nd_task (WorkflowView.data n))
                  (Some "todo")) 0)).
Proof.
  intros n m a b Hn Hm. unfold NodeStyle.nodeColor. rewrite Hn, Hm.
  cbn [WorkflowView.taskNode WorkflowView.data WorkflowView.nd_task
       with_status status].
  clear. unfold NodeStyle.getStatusColor, str_is; simpl; split_status;
    (split; [split; intros H; (reflexivity || discriminate H)|]);
    intros H1 H2 H3; try congruence; repeat split; reflexivity.
Qed.

Lemma node_and_minimap_colours_agree_witness :
  NodeStyle.nodeColor
    (WorkflowView.taskNode (Sample.task "t9" "blocked" "p1" None) 0)
  = "#6B7280".
Proof.
  apply (@node_and_minimap_colours_agree
           (WorkflowView.taskNode (Sample.task "t9" "blocked" "p1" None) 0)
           (WorkflowView.taskNode Sample.t1 1) "blocked" "todo");
    try reflexivity; discriminate.
Defined.

(** ** The overdue flag over time *)

(** X18: the overdue flag only ever switches on as the clock advances: a
    task shown as overdue, on the card or on the node, is overdue at every
    later clock reading.  At no clock reading is a task overdue that is
    marked done, whatever its due date, or whose due date is missing or
    does not parse. *)
Theorem overdue_is_monotone_in_time :
  forall (w : World) (t : Task) (c1 c2 : Z),
    (c1 <= c2)%Z ->
    (card_overdue (with_clock w c1) t = true ->
     card_overdue (with_clock w c2) t = true)
    /\ (node_overdue (with_clock w c1) t = true ->
        node_overdue (with_clock w c2) t = true)
    /\ (forall (u : Task) (c : Z),
          status u = Some "done" ->
          card_overdue (with_clock w c) u = false
          /\ node_overdue (with_clock w c) u = false)
    /\ (forall (u : Task) (c : Z),
          due_time w u = None ->
          card_overdue (with_clock w c) u = false
          /\ node_overdue (with_clock w c) u = false).
Proof.
  intros w t c1 c2 Hle.
  assert (Hdue : forall c u, due_time (with_clock w c) u = due_time w u)
    by reflexivity.
  assert (Hmono :
            date_lt (due_time w t) (Some c1) && str_isnt (status t) "done"
              = true ->
            date_lt (due_time w t) (Some c2) && str_isnt (status t) "done"
              = true).
  { intros H1. apply andb_true_iff in H1. destruct H1 as [Hlt Hst].
    destruct (due_time w t) as [d|]; [|discriminate].
    apply date_lt_spec in Hlt.
    assert (Hlt2 : date_lt (Some d) (Some c2) = true)
      by (apply date_lt_spec; lia).
    now rewrite Hlt2, Hst. }
  split; [|split; [|split]].
  - rewrite !card_overdue_eq, !Hdue. exact Hmono.
  - rewrite !node_overdue_eq, !Hdue. exact Hmono.
  - intros u c Hu. rewrite card_overdue_eq, node_overdue_eq, Hu.
    split; apply andb_false_r.
  - intros u c Hu. rewrite card_overdue_eq, node_overdue_eq, Hdue, Hu.
    split; reflexivity.
Qed.

Lemma overdue_is_monotone_in_time_witness :
  card_overdue (Sample.browser 1710115200000) Sample.t1 = true.
Proof.
  apply (@overdue_is_monotone_in_time
           (Sample.browser 0) Sample.t1 1710028800001%Z 1710115200000%Z).
  - lia.
  - reflexivity.
Defined.

(** ** The card and the node side by side *)

(** X19: the task card and the workflow node, which each have their own
    [formatDate], always agree: they show the same overdue flag and the
    same date text, and neither shows a date when the due date is
    missing. *)
Theorem card_and_node_agree_on_due_date :
  forall (w : World) (t : Task),
    card_overdue w t = node_overdue w t
    /\ TaskCard.info_formatted (TaskCard.formatDate w t (due_date t))
       = option_map TaskNode.formatted
           (TaskNode.formatDate w (status t) (due_date t))
    /\ (TaskNode.formatDate w (status t) (due_date t) = None
        <-> falsy_str (due_date t) = true).
Proof.
  intros w t. split; [now rewrite card_overdue_eq, node_overdue_eq|].
  unfold TaskCard.formatDate, TaskNode.formatDate.
  destruct (falsy_str (due_date t)) eqn:F.
  - split; [reflexivity | split; intros; reflexivity].
  - destruct (due_date t) as [s|]; [|discriminate F].
    split; [reflexivity | split; intros; discriminate].
Qed.

Lemma find_by_id {A : Type} (key : A -> string) (id : string) (l : list A) :
  match find (fun x => String.eqb (key x) id) l with
  | Some x => In x l /\ key x = id
  | None => forall x, In x l -> key x <> id
  end.
Proof.
  destruct (find _ l) as [x|] eqn:F.
  - apply find_some in F. destruct F as [Hin Hk].
    split; [exact Hin | now apply String.eqb_eq].
  - intros x Hin. apply String.eqb_neq. exact (find_none _ _ F x Hin).
Qed.

(** X20: a rendered task card always names a project: the name of a
    supplied project whose id is the task's project reference, or
    "Unknown"; it is "Unknown" whenever no supplied project has that id,
    and the name shown is never empty.  The assignee, when shown, is a
    supplied user with the task's assignee id. *)
Theorem card_project_name_is_never_empty :
  forall (w : World) (t : Task) (projects : list Project)
         (users : list User) (v : TaskCard.CardView),
    TaskCard.render w t projects users = TaskCard.View v ->
    TaskCard.cv_project v <> ""
    /\ (TaskCard.cv_project v = "Unknown"
        \/ exists p, In p projects /\ proj_id p = project_id t
                     /\ proj_name p = TaskCard.cv_project v)
    /\ ((forall p, In p projects -> proj_id p <> project_id t) ->
        TaskCard.cv_project v = "Unknown")
    /\ (forall name, TaskCard.cv_assignee v = Some name ->
          exists u, In u users /\ Some (user_id u) = assignee_id t
                    /\ user_name u = name).
Proof.
  intros w t projects users v Hr. unfold TaskCard.render in Hr.
  destruct (status t) as [st|]; [|discriminate].
  injection Hr as <-.
  cbn [TaskCard.cv_project TaskCard.cv_assignee].
  assert (HA : forall name,
             option_map user_name (TaskCard.getUser users (assignee_id t))
             = Some name ->
             exists u, In u users /\ Some (user_id u) = assignee_id t
                       /\ user_name u = name).
  { intros name Hn. unfold TaskCard.getUser in Hn.
    destruct (assignee_id t) as [uid|]; [|discriminate].
    pose proof (find_by_id user_id uid users) as HU.
    destruct (find _ users) as [u|]; [|discriminate].
    injection Hn as <-. exists u. destruct HU as [Hin Hid].
    split; [exact Hin|]. split; [now rewrite Hid | reflexivity]. }
  unfold TaskCard.getProject.
  pose proof (find_by_id proj_id (project_id t) projects) as HP.
  destruct (find _ projects) as [p|].
  - destruct HP as [Hin Hid].
    destruct (String.eqb_spec (proj_name p) "") as [E|N].
    + split; [discriminate|]. split; [now left|].
      split; [reflexivity | exact HA].
    + split; [exact N|]. split; [right; now exists p|].
      split; [|exact HA].
      intros Hno. exfalso. now apply (Hno p).
  - split; [discriminate|]. split; [now left|].
    split; [reflexivity | exact HA].
Qed.

Lemma card_project_name_is_never_empty_witness :
  exists v,
    TaskCard.render (Sample.browser 0) Sample.t1 [Sample.p1] []
      = TaskCard.View v
    /\ TaskCard.cv_project v <> "".
Proof.
  eexists. split; [reflexivity|].
  apply (@card_project_name_is_never_empty
           (Sample.browser 0) Sample.t1 [Sample.p1] [] _ eq_refl).
Defined.

Lemma summary_card_accounts_for_every_task_witness :
  WorkflowView.card_more
    (WorkflowView.summaryCard
       [Sample.t2; Sample.t4; Sample.t2; Sample.t4; Sample.t1] "in_progress")
  = Some 1
  /\ 1 <= 1.
Proof.
  split; [reflexivity|].
  apply (@summary_card_accounts_for_every_task
           [Sample.t2; Sample.t4; Sample.t2; Sample.t4; Sample.t1]
           "in_progress").
  reflexivity.
Defined.

Lemma dashboard_recent_lists_are_short_witness :
  Dashboard.loading
    (dashboardRun [ {| ld_projects := Rejected; ld_tasks := Rejected;
                       ld_projectAnalytics := Rejected;
                       ld_taskAnalytics := Rejected |} ])
  = false.
Proof.
  apply (@dashboard_recent_lists_are_short
           [ {| ld_projects := Rejected; ld_tasks := Rejected;
                ld_projectAnalytics := Rejected;
                ld_taskAnalytics := Rejected |} ]).
  discriminate.
Defined.
